(** * que: filtering, metric conversion, table rendering and summary

    A shallow embedding of [que.py].  The scheduler payload is a JSON
    document decoded by [json.loads] with [object_pairs_hook=OrderedDict];
    it is modelled by the type [value] below, dictionaries being
    association lists in insertion order.  Every Python operation the
    program applies to such a value is given on every kind of value, with
    the exception it raises when the kind does not support it, because
    [filter_json] treats [TypeError] differently from the other exceptions.

    Modelling boundaries, kept explicit:
    - strings are sequences of 8-bit characters and the character
      functions ([upper], [lower], [isspace], [repr]) are the ASCII ones;
    - JSON numbers are integers (what the scheduler emits for [ncpus] and
      [cpupercent]); Python floats appear as results of [/] and [float()]
      and are IEEE binary64 values of [SpecFloat];
    - the interpreter is CPython 3.6 to 3.11 (an [OrderedDict] prints as a
      list of pairs, slicing a dictionary is a [TypeError]); its limit on
      the number of digits of [int(str)] and memory exhaustion are not
      modelled. *)

From Stdlib Require Import ZArith String Ascii List Lia Bool Arith.
From Stdlib Require Import Floats.SpecFloat.
From Stdlib Require Import Numbers.DecimalString.
Import ListNotations.

Open Scope string_scope.

(** ** Exceptions and results *)

Inductive exn : Type :=
| KeyError
| TypeError
| ValueError
| ZeroDivisionError
| AttributeError
| IndexError
| OverflowError
| SystemExit (status : Z).

Inductive result (A : Type) : Type :=
| Ok (a : A)
| Raise (e : exn).

Arguments Ok {A} a.
Arguments Raise {A} e.

Definition bind {A B : Type} (r : result A) (k : A -> result B) : result B :=
  match r with
  | Ok a => k a
  | Raise e => Raise e
  end.

Notation "x <- r ;; k" := (bind r (fun x => k))
  (at level 61, r at next level, right associativity).

(** [try: body except KeyError: handler] *)
Definition except_KeyError {A : Type} (body : result A) (handler : result A) : result A :=
  match body with
  | Raise KeyError => handler
  | other => other
  end.


(** ** Python [str] operations *)

Module PyStr.

Definition code (c : ascii) : N := N_of_ascii c.

Definition in_range (lo hi : N) (c : ascii) : bool :=
  (N.leb lo (code c) && N.leb (code c) hi)%bool.

Definition is_digit (c : ascii) : bool := in_range 48 57 c.
Definition is_lower_letter (c : ascii) : bool := in_range 97 122 c.
Definition is_upper_letter (c : ascii) : bool := in_range 65 90 c.

(** [str.isspace] on ASCII: TAB, LF, VT, FF, CR, FS, GS, RS, US and space. *)
Definition is_space (c : ascii) : bool :=
  (in_range 9 13 c || in_range 28 32 c)%bool.

Definition upper_char (c : ascii) : ascii :=
  if is_lower_letter c then ascii_of_N (code c - 32) else c.

Definition lower_char (c : ascii) : ascii :=
  if is_upper_letter c then ascii_of_N (code c + 32) else c.

Fixpoint map_chars (f : ascii -> ascii) (s : string) : string :=
  match s with
  | EmptyString => EmptyString
  | String c t => String (f c) (map_chars f t)
  end.

Definition upper : string -> string := map_chars upper_char.
Definition lower : string -> string := map_chars lower_char.

Fixpoint all_chars (p : ascii -> bool) (s : string) : bool :=
  match s with
  | EmptyString => true
  | String c t => (p c && all_chars p t)%bool
  end.

Fixpoint has_char (c : ascii) (s : string) : bool :=
  match s with
  | EmptyString => false
  | String d t => (Ascii.eqb c d || has_char c t)%bool
  end.

(** [needle in hay] for two strings. *)
Fixpoint contains (needle hay : string) : bool :=
  (String.prefix needle hay ||
   match hay with
   | EmptyString => false
   | String _ t => contains needle t
   end)%bool.

Fixpoint lstrip (s : string) : string :=
  match s with
  | EmptyString => EmptyString
  | String c t => if is_space c then lstrip t else s
  end.

Fixpoint rstrip (s : string) : string :=
  match s with
  | EmptyString => EmptyString
  | String c t =>
      match rstrip t with
      | EmptyString => if is_space c then EmptyString else String c EmptyString
      | t' => String c t'
      end
  end.

Definition strip (s : string) : string := rstrip (lstrip s).

(** [s.split(sep)] for a one-character separator; never empty. *)
Fixpoint split (sep : ascii) (s : string) : list string :=
  match s with
  | EmptyString => [EmptyString]
  | String c t =>
      if Ascii.eqb c sep then EmptyString :: split sep t
      else match split sep t with
           | h :: r => String c h :: r
           | [] => [String c EmptyString]
           end
  end.

(** [sep.join(parts)] *)
Fixpoint join (sep : string) (parts : list string) : string :=
  match parts with
  | [] => EmptyString
  | [p] => p
  | p :: rest => p ++ sep ++ join sep rest
  end.

(** [s.replace(old, new)] for a non-empty [old]: occurrences are replaced
    from the left and do not overlap; [skip] counts the characters of the
    occurrence being dropped. *)
Fixpoint replace_from (old new : string) (skip : nat) (s : string) : string :=
  match s with
  | EmptyString => EmptyString
  | String c t =>
      match skip with
      | S k => replace_from old new k t
      | O =>
          if String.prefix old s
          then new ++ replace_from old new (String.length old - 1) t
          else String c (replace_from old new 0 t)
      end
  end.

Definition replace (old new s : string) : string := replace_from old new 0 s.

(** [s[n:]] and [s[:n]] for [0 <= n]. *)
Fixpoint drop (n : nat) (s : string) : string :=
  match n, s with
  | O, _ => s
  | S k, String _ t => drop k t
  | S _, EmptyString => EmptyString
  end.

Fixpoint take (n : nat) (s : string) : string :=
  match n, s with
  | O, _ => EmptyString
  | S k, String c t => String c (take k t)
  | S _, EmptyString => EmptyString
  end.

Fixpoint repeat_char (c : ascii) (n : nat) : string :=
  match n with
  | O => EmptyString
  | S k => String c (repeat_char c k)
  end.

(** Format specification [^width]: the text is centred, the odd blank
    going to the right. *)
Definition center (s : string) (width : nat) : string :=
  let pad := (width - String.length s)%nat in
  let left := Nat.div2 pad in
  repeat_char " " left ++ s ++ repeat_char " " (pad - left).

(** Format specification [>width] (the default for numbers). *)
Definition rjust (s : string) (width : nat) : string :=
  repeat_char " " (width - String.length s) ++ s.

Definition hex_digit (n : N) : ascii :=
  if N.ltb n 10 then ascii_of_N (48 + n) else ascii_of_N (87 + n).

(** [repr(s)]: single quotes unless the text has a single quote and no
    double quote; backslash, the quote and control characters escaped. *)
Definition repr_char (quote c : ascii) : string :=
  if (Ascii.eqb c quote || Ascii.eqb c "\")%bool then String "\" (String c EmptyString)
  else if Ascii.eqb c (ascii_of_N 10) then "\n"
  else if Ascii.eqb c (ascii_of_N 13) then "\r"
  else if Ascii.eqb c (ascii_of_N 9) then "\t"
  else if (N.ltb (code c) 32 || N.eqb (code c) 127)%bool
       then String "\" (String "x" (String (hex_digit (code c / 16))
                                     (String (hex_digit (code c mod 16)) EmptyString)))
  else String c EmptyString.

Fixpoint concat_map (f : ascii -> string) (s : string) : string :=
  match s with
  | EmptyString => EmptyString
  | String c t => f c ++ concat_map f t
  end.

Definition repr (s : string) : string :=
  let dquote : ascii := ascii_of_N 34 in
  let quote : ascii :=
    if (has_char "'" s && negb (has_char dquote s))%bool then dquote else "'"%char in
  String quote (concat_map (repr_char quote) s) ++ String quote EmptyString.

End PyStr.

(** ** Python numbers: [int(str)], [float(str)], true division, [%.0f] *)

Module PyNum.
Import PyStr.

Local Open Scope Z_scope.

Definition float := spec_float.

Definition prec : Z := 53.
Definition emax : Z := 1024.

Definition fmul : float -> float -> float := SFmul prec emax.
Definition fdiv : float -> float -> float := SFdiv prec emax.

Definition is_fzero (f : float) : bool :=
  match f with S754_zero _ => true | _ => false end.

Definition is_finf (f : float) : bool :=
  match f with S754_infinity _ => true | _ => false end.

(** The binary64 value nearest to [n / d] (ties to even), [n] and [d]
    positive, negated when [neg]. *)
Definition round_ratio (neg : bool) (n d : positive) : float :=
  let '(q, e, l) := SFdiv_core_binary prec emax (Zpos n) 0 (Zpos d) 0 in
  binary_round_aux prec emax neg q e l.

(** The binary64 value nearest to the integer [z]; infinite when [z] is
    out of range. *)
Definition nearest_float (z : Z) : float := binary_normalize prec emax z 0 false.

(** [float(z)] for an [int]; also the conversion of an [int] operand of a
    [float] operation. *)
Definition float_of_int (z : Z) : result float :=
  let f := nearest_float z in
  if is_finf f then Raise OverflowError else Ok f.

Definition f100 : float := nearest_float 100.
Definition f1024 : float := nearest_float 1024.

(** [a / b] on two [int]s: the correctly rounded quotient. *)
Definition int_truediv (a b : Z) : result float :=
  match b, a with
  | Z0, _ => Raise ZeroDivisionError
  | _, Z0 => Ok (S754_zero (b <? 0))
  | Zpos pb, Zpos pa => let f := round_ratio false pa pb in
                        if is_finf f then Raise OverflowError else Ok f
  | Zneg pb, Zneg pa => let f := round_ratio false pa pb in
                        if is_finf f then Raise OverflowError else Ok f
  | Zpos pb, Zneg pa => let f := round_ratio true pa pb in
                        if is_finf f then Raise OverflowError else Ok f
  | Zneg pb, Zpos pa => let f := round_ratio true pa pb in
                        if is_finf f then Raise OverflowError else Ok f
  end.

(** [x / y] on two [float]s. *)
Definition float_truediv (x y : float) : result float :=
  if is_fzero y then Raise ZeroDivisionError else Ok (fdiv x y).

(** [a / y] with [a] an [int] and [y] a [float]: the [int] is converted
    first, then the divisor is tested. *)
Definition int_float_truediv (a : Z) (y : float) : result float :=
  x <- float_of_int a ;;
  float_truediv x y.

(** Decimal digits. *)
Definition digit_value (c : ascii) : Z := Z.of_N (code c) - 48.

Fixpoint digits_value_from (acc : Z) (s : string) : Z :=
  match s with
  | EmptyString => acc
  | String c t => digits_value_from (10 * acc + digit_value c) t
  end.

Definition digits_value (s : string) : Z := digits_value_from 0 s.

Definition is_digits (s : string) : bool :=
  (negb (String.eqb s EmptyString) && all_chars is_digit s)%bool.

(** Underscores of a numeric literal: each must stand between two
    digits; they are removed.  [prev] tells whether the previous
    character was a digit. *)
Fixpoint drop_underscores (prev : bool) (s : string) : option string :=
  match s with
  | EmptyString => Some EmptyString
  | String c t =>
      if Ascii.eqb c "_" then
        match t with
        | String d _ =>
            if (prev && is_digit d)%bool then drop_underscores false t else None
        | EmptyString => None
        end
      else option_map (String c) (drop_underscores (is_digit c) t)
  end.

(** An optional sign in front of a literal. *)
Definition split_sign (s : string) : bool * string :=
  match s with
  | String "-" t => (true, t)
  | String "+" t => (false, t)
  | _ => (false, s)
  end.

(** [int(s)] in base 10. *)
Definition int_of_str (s : string) : result Z :=
  let '(neg, body) := split_sign (strip s) in
  match drop_underscores false body with
  | Some ds =>
      if is_digits ds
      then Ok (if neg then - digits_value ds else digits_value ds)
      else Raise ValueError
  | None => Raise ValueError
  end.

(** [str(z)] for an [int]. *)
Definition str_of_int (z : Z) : string := NilZero.string_of_int (Z.to_int z).

(** The text before and after the first character satisfying [p]. *)
Fixpoint break_at (p : ascii -> bool) (s : string) : string * option string :=
  match s with
  | EmptyString => (EmptyString, None)
  | String c t =>
      if p c then (EmptyString, Some t)
      else let '(a, b) := break_at p t in (String c a, b)
  end.

Definition is_exp_mark (c : ascii) : bool := (Ascii.eqb c "e" || Ascii.eqb c "E")%bool.
Definition is_point (c : ascii) : bool := Ascii.eqb c ".".

Definition all_digits (s : string) : bool := all_chars is_digit s.

(** A decimal literal without sign: [digits [. digits] [e [sign] digits]]
    with at least one digit in the mantissa.  The result [(m, e)] stands
    for [m * 10^e]. *)
Definition parse_decimal (s : string) : option (Z * Z) :=
  let '(mant, expo) := break_at is_exp_mark s in
  let '(ipart, fpart) := break_at is_point mant in
  let frac := match fpart with Some f => f | None => EmptyString end in
  if (all_digits ipart && all_digits frac
      && negb (String.eqb (ipart ++ frac) EmptyString))%bool
  then
    let m := digits_value (ipart ++ frac) in
    let shift := Z.of_nat (String.length frac) in
    match expo with
    | None => Some (m, - shift)
    | Some x =>
        let '(eneg, ed) := split_sign x in
        if is_digits ed
        then Some (m, (if eneg then - digits_value ed else digits_value ed) - shift)
        else None
    end
  else None.

(** The binary64 value nearest to [m * 10^e], [m >= 0]. *)
Definition float_of_decimal (neg : bool) (m e : Z) : float :=
  match m with
  | Zpos pm =>
      if 0 <=? e
      then binary_round prec emax neg (Z.to_pos (Zpos pm * 10 ^ e)) 0
      else round_ratio neg pm (Z.to_pos (10 ^ (- e)))
  | _ => S754_zero neg
  end.

(** [float(s)] *)
Definition float_of_str (s : string) : result float :=
  let '(neg, body) := split_sign (strip s) in
  let word := lower body in
  if (String.eqb word "inf" || String.eqb word "infinity")%bool
  then Ok (S754_infinity neg)
  else if String.eqb word "nan" then Ok S754_nan
  else
    match drop_underscores false body with
    | Some lit =>
        match parse_decimal lit with
        | Some (m, e) => Ok (float_of_decimal neg m e)
        | None => Raise ValueError
        end
    | None => Raise ValueError
    end.

(** The integer nearest to [m * 2^e], ties to even. *)
Definition round_half_even (m : positive) (e : Z) : Z :=
  if 0 <=? e then Zpos m * 2 ^ e
  else
    let unit := 2 ^ (- e) in
    let q := Zpos m / unit in
    let r := Zpos m mod unit in
    match 2 * r ?= unit with
    | Lt => q
    | Gt => q + 1
    | Eq => if Z.even q then q else q + 1
    end.

(** Presentation type [.0f]. *)
Definition format_f0 (f : float) : string :=
  match f with
  | S754_nan => "nan"
  | S754_infinity s => if s then "-inf" else "inf"
  | S754_zero s => if s then "-0" else "0"
  | S754_finite s m e =>
      (if s then "-" else "") ++ str_of_int (round_half_even m e)
  end.

(** [f"{x:W.0f}"] *)
Definition format_fixed0 (width : nat) (f : float) : string :=
  rjust (format_f0 f) width.

End PyNum.

(** ** Decoded JSON and the operations the program applies to it *)

#[warnings="-register-all"]
Inductive value : Type :=
| VNone
| VBool (b : bool)
| VInt (z : Z)
| VStr (s : string)
| VList (items : list value)
| VDict (entries : list (string * value)).

(** Ordered dictionaries with string keys. *)
Fixpoint dict_get {A : Type} (k : string) (d : list (string * A)) : option A :=
  match d with
  | [] => None
  | (k', v) :: rest => if String.eqb k' k then Some v else dict_get k rest
  end.

(** [d[k] = v]: an existing key keeps its position, a new key goes last. *)
Fixpoint dict_set {A : Type} (k : string) (v : A) (d : list (string * A))
  : list (string * A) :=
  match d with
  | [] => [(k, v)]
  | (k', v') :: rest =>
      if String.eqb k' k then (k', v) :: rest else (k', v') :: dict_set k v rest
  end.

Definition keys {A : Type} (d : list (string * A)) : list string := map fst d.

Module Py.
Import PyStr PyNum.

(** [v[k]] with a string subscript. *)
Definition getitem (v : value) (k : string) : result value :=
  match v with
  | VDict d => match dict_get k d with
               | Some x => Ok x
               | None => Raise KeyError
               end
  | _ => Raise TypeError
  end.

(** [v[k] = x] on a dictionary (the only use in the program). *)
Definition setitem (v : value) (k : string) (x : value) : value :=
  match v with
  | VDict d => VDict (dict_set k x d)
  | other => other
  end.

Definition is_str (s : string) (v : value) : bool :=
  match v with
  | VStr t => String.eqb s t
  | _ => false
  end.

(** [needle in v] with a string on the left. *)
Definition contains (needle : string) (v : value) : result bool :=
  match v with
  | VStr hay => Ok (PyStr.contains needle hay)
  | VList items => Ok (existsb (is_str needle) items)
  | VDict d => Ok (existsb (String.eqb needle) (keys d))
  | _ => Raise TypeError
  end.

(** [len(v)] *)
Definition len (v : value) : result nat :=
  match v with
  | VStr s => Ok (String.length s)
  | VList items => Ok (List.length items)
  | VDict d => Ok (List.length d)
  | _ => Raise TypeError
  end.

(** [repr(v)]; an [OrderedDict] prints as a list of pairs. *)
Fixpoint repr (v : value) : string :=
  match v with
  | VNone => "None"
  | VBool b => if b then "True" else "False"
  | VInt z => str_of_int z
  | VStr s => PyStr.repr s
  | VList items =>
      "[" ++ join ", " ((fix each (l : list value) : list string :=
                           match l with
                           | [] => []
                           | x :: r => repr x :: each r
                           end) items) ++ "]"
  | VDict d =>
      match d with
      | [] => "OrderedDict()"
      | _ =>
          "OrderedDict([" ++
          join ", " ((fix each (l : list (string * value)) : list string :=
                        match l with
                        | [] => []
                        | (k, x) :: r =>
                            ("(" ++ PyStr.repr k ++ ", " ++ repr x ++ ")") :: each r
                        end) d) ++ "])"
      end
  end.

(** [str(v)] *)
Definition str (v : value) : string :=
  match v with
  | VStr s => s
  | other => repr other
  end.

(** The integer a number stands for; [bool] is a subclass of [int]. *)
Definition as_int (v : value) : option Z :=
  match v with
  | VInt z => Some z
  | VBool b => Some (if b then 1 else 0)%Z
  | _ => None
  end.

(** [f"{v:^width}"] for a positive width: text and integers are centred
    (a [bool] is formatted as the integer it is); the other kinds reject
    a non-empty format specification. *)
Definition format_center (v : value) (width : nat) : result string :=
  match v with
  | VStr s => Ok (center s width)
  | VInt z => Ok (center (str_of_int z) width)
  | VBool b => Ok (center (if b then "1" else "0") width)
  | _ => Raise TypeError
  end.

(** [v.split(sep)], [v.replace(old, new)], [v.rstrip()]: methods of [str]
    only. *)
Definition split (v : value) (sep : ascii) : result (list string) :=
  match v with
  | VStr s => Ok (PyStr.split sep s)
  | _ => Raise AttributeError
  end.

Definition replace (v : value) (old new : string) : result string :=
  match v with
  | VStr s => Ok (PyStr.replace old new s)
  | _ => Raise AttributeError
  end.

Definition rstrip (v : value) : result string :=
  match v with
  | VStr s => Ok (PyStr.rstrip s)
  | _ => Raise AttributeError
  end.

(** [parts[i]] on a list of strings. *)
Definition index (parts : list string) (i : nat) : result string :=
  match nth_error parts i with
  | Some s => Ok s
  | None => Raise IndexError
  end.

(** [v.items()] *)
Definition items (v : value) : result (list (string * value)) :=
  match v with
  | VDict d => Ok d
  | _ => Raise AttributeError
  end.

End Py.

(** ** The program *)

Module Que.
Import PyStr PyNum.

(** *** Metric converters *)

(** Lines 72-75: the used walltime, ["00:00:00"] without usage data. *)
Definition used_walltime_of (used_walltime : value) : result value :=
  except_KeyError
    (r <- Py.getitem used_walltime "resources_used" ;; Py.getitem r "walltime")
    (Ok (VStr "00:00:00")).

(** Lines 79-80: [(int(parts[0])*60)+int(parts[1])] *)
Definition minutes_of (parts : list string) : result Z :=
  h0 <- Py.index parts 0 ;;
  h <- int_of_str h0 ;;
  m0 <- Py.index parts 1 ;;
  m <- int_of_str m0 ;;
  Ok (h * 60 + m)%Z.

Definition convert_walltime (used_walltime total_walltime : value) : result string :=
  used <- used_walltime_of used_walltime ;;
  total <- Py.getitem total_walltime "walltime" ;;
  used_split <- Py.split used ":" ;;
  let used_parts := firstn 2 used_split in
  total_split <- Py.split total ":" ;;
  let total_parts := firstn 2 total_split in
  percentage_numerator <- minutes_of used_parts ;;
  percentage_denominator <- minutes_of total_parts ;;
  denominator <- float_of_int percentage_denominator ;;
  ratio <- int_float_truediv percentage_numerator denominator ;;
  let percentage := fmul f100 ratio in
  Ok (join ":" used_parts ++ "/" ++ join ":" total_parts ++ " " ++
      "(" ++ format_fixed0 2 percentage ++ "%)").

(** Lines 89-92: the used CPU percentage, [0] without usage data. *)
Definition used_cpus_of (used_cpus : value) : result value :=
  except_KeyError
    (r <- Py.getitem used_cpus "resources_used" ;; Py.getitem r "cpupercent")
    (Ok (VInt 0)).

(** [used / (total*100)]: both operands must be numbers; [total*100] on a
    text or a list is a repetition, which [/] then rejects. *)
Definition cpu_ratio (used total : value) : result float :=
  match Py.as_int used, Py.as_int total with
  | Some u, Some t => int_truediv u (t * 100)
  | _, _ => Raise TypeError
  end.

Definition convert_cpu_efficiency (used_cpus total_cpus : value) : result string :=
  used <- used_cpus_of used_cpus ;;
  total <- Py.getitem total_cpus "ncpus" ;;
  ratio <- cpu_ratio used total ;;
  Ok (format_fixed0 3 (fmul ratio f100) ++ "%").

(** Lines 98-101: the used memory as an integer, [0] without usage data. *)
Definition used_mem_of (used_mem : value) : result Z :=
  except_KeyError
    (r <- Py.getitem used_mem "resources_used" ;;
     m <- Py.getitem r "mem" ;;
     no_kb <- Py.replace m "kb" "" ;;
     int_of_str (replace "b" "" no_kb))
    (Ok 0%Z).

(** Lines 103-104 on a text: the last two characters and the number in
    front of them. *)
Definition mem_units (total_mem : string) : string :=
  drop (String.length total_mem - 2) total_mem.

Definition mem_amount (total_mem : string) : result float :=
  float_of_str (take (String.length total_mem - 2) total_mem).

(** Lines 103-104 on any value: [len] needs a sized value, [float] of a
    list slice is a type error, a dictionary cannot be sliced. *)
Definition mem_units_amount (total_mem : value) : result (string * float) :=
  match total_mem with
  | VStr s => amount <- mem_amount s ;; Ok (mem_units s, amount)
  | _ => Raise TypeError
  end.

Definition convert_mem_efficiency (used_mem total_mem : value) : result string :=
  used <- used_mem_of used_mem ;;
  total <- Py.getitem total_mem "mem" ;;
  ua <- mem_units_amount total ;;
  let '(units, amount) := ua in
  let percent (total_kb : float) : result string :=
    ratio <- int_float_truediv used total_kb ;;
    Ok (format_fixed0 3 (fmul ratio f100) ++ "%") in
  if String.eqb (lower units) "gb" then percent (fmul (fmul amount f1024) f1024)
  else if String.eqb (lower units) "mb" then percent (fmul amount f1024)
  else if String.eqb (lower units) "kb" then percent amount
  else if String.eqb (lower units) "0b" then Ok "0%"
  else percent amount.

(** *** Column widths *)

Inductive column : Type :=
| c_user | c_queue | c_state | c_name | c_mem | c_ncpus | c_jobid
| c_walltime | c_cpu_efficiency | c_mem_efficiency.

(** The dictionary [spacing]: its ten keys are fixed. *)
Record spacing : Type := Spacing {
  sp_user : nat;
  sp_queue : nat;
  sp_state : nat;
  sp_name : nat;
  sp_mem : nat;
  sp_ncpus : nat;
  sp_jobid : nat;
  sp_walltime : nat;
  sp_cpu_efficiency : nat;
  sp_mem_efficiency : nat
}.

(** [spacing[key]] *)
Definition width (sp : spacing) (c : column) : nat :=
  match c with
  | c_user => sp_user sp
  | c_queue => sp_queue sp
  | c_state => sp_state sp
  | c_name => sp_name sp
  | c_mem => sp_mem sp
  | c_ncpus => sp_ncpus sp
  | c_jobid => sp_jobid sp
  | c_walltime => sp_walltime sp
  | c_cpu_efficiency => sp_cpu_efficiency sp
  | c_mem_efficiency => sp_mem_efficiency sp
  end.

(** [spacing[key] = n] *)
Definition set_width (c : column) (n : nat) (sp : spacing) : spacing :=
  let '(Spacing u q s nm m nc j w ce me) := sp in
  match c with
  | c_user => Spacing n q s nm m nc j w ce me
  | c_queue => Spacing u n s nm m nc j w ce me
  | c_state => Spacing u q n nm m nc j w ce me
  | c_name => Spacing u q s n m nc j w ce me
  | c_mem => Spacing u q s nm n nc j w ce me
  | c_ncpus => Spacing u q s nm m n j w ce me
  | c_jobid => Spacing u q s nm m nc n w ce me
  | c_walltime => Spacing u q s nm m nc j n ce me
  | c_cpu_efficiency => Spacing u q s nm m nc j w n me
  | c_mem_efficiency => Spacing u q s nm m nc j w ce n
  end.

(** [spacing[key] = max(spacing[key], n)] *)
Definition grow (c : column) (n : nat) (sp : spacing) : spacing :=
  set_width c (Nat.max (width sp c) n) sp.

(** The header label of each column (lines 173-182). *)
Definition label (c : column) : string :=
  match c with
  | c_jobid => "JobID"
  | c_name => "JobName"
  | c_mem => "Mem"
  | c_ncpus => "CPUs"
  | c_user => "User"
  | c_queue => "Queue"
  | c_state => "State"
  | c_walltime => "Walltime"
  | c_cpu_efficiency => "%CPU"
  | c_mem_efficiency => "%MEM"
  end.

(** Lines 127-136. *)
Definition initial_spacing (user queue : string) : spacing :=
  {| sp_user := Nat.max 7 (String.length user);
     sp_queue := Nat.max 7 (String.length queue);
     sp_state := 5;
     sp_name := 7;
     sp_mem := 3;
     sp_ncpus := 4;
     sp_jobid := 8;
     sp_walltime := 8;
     sp_cpu_efficiency := String.length "CPU Eff.";
     sp_mem_efficiency := String.length "MEM Eff." |}.

(** *** Job filter *)

(** Lines 138-139: a [Job_Name] of type [int] is replaced, in the job
    itself, by its decimal text. *)
Definition normalize_name (job : value) : result value :=
  nm <- Py.getitem job "Job_Name" ;;
  match nm with
  | VInt z => Ok (Py.setitem job "Job_Name" (VStr (str_of_int z)))
  | _ => Ok job
  end.

(** The third conjunct of the condition, on the state text itself. *)
Definition state_matches (state job_state : string) : bool :=
  PyStr.contains (upper state) job_state.

(** Lines 141-144: the four tests, left to right, stopping at the first
    that fails. *)
Definition job_matches (user queue state name : string) (job : value) : result bool :=
  owner <- Py.getitem job "Job_Owner" ;;
  by_user <- Py.contains user owner ;;
  if negb by_user then Ok false else
  q <- Py.getitem job "queue" ;;
  by_queue <- Py.contains queue q ;;
  if negb by_queue then Ok false else
  st <- Py.getitem job "job_state" ;;
  by_state <- Py.contains (upper state) st ;;
  if negb by_state then Ok false else
  nm <- Py.getitem job "Job_Name" ;;
  Py.contains name nm.

(** Lines 146-162: the seven running maxima. *)
Definition update_spacing (job : value) (sp : spacing) : result spacing :=
  nm <- Py.getitem job "Job_Name" ;;
  name_len <- Py.len nm ;;
  let sp := grow c_name name_len sp in
  rl <- Py.getitem job "Resource_List" ;;
  m <- Py.getitem rl "mem" ;;
  mem_len <- Py.len m ;;
  let sp := grow c_mem mem_len sp in
  q <- Py.getitem job "queue" ;;
  queue_len <- Py.len q ;;
  let sp := grow c_queue queue_len sp in
  rl <- Py.getitem job "Resource_List" ;;
  wt <- convert_walltime job rl ;;
  let sp := grow c_walltime (String.length wt) sp in
  rl <- Py.getitem job "Resource_List" ;;
  nc <- Py.getitem rl "ncpus" ;;
  let sp := grow c_ncpus (String.length (Py.str nc)) sp in
  rl <- Py.getitem job "Resource_List" ;;
  ce <- convert_cpu_efficiency job rl ;;
  let sp := grow c_cpu_efficiency (String.length ce) sp in
  rl <- Py.getitem job "Resource_List" ;;
  me <- convert_mem_efficiency job rl ;;
  Ok (grow c_mem_efficiency (String.length me) sp).

(** Lines 141-162: the body of the [try] for one job. *)
Definition guarded (user queue state name : string) (jobid : string) (job : value)
  (filtered_json : list (string * value)) (sp : spacing)
  : result (list (string * value) * spacing) :=
  matched <- job_matches user queue state name job ;;
  if matched
  then sp' <- update_spacing job sp ;; Ok (dict_set jobid job filtered_json, sp')
  else Ok (filtered_json, sp).

(** What a run of the filter leaves behind: the input as mutated, what
    was printed, and the value returned or the exception raised. *)
Record run (S A : Type) : Type := Run {
  store : S;
  printed : list value;
  returned : result A
}.

Arguments Run {S A} store printed returned.
Arguments store {S A} r.
Arguments printed {S A} r.
Arguments returned {S A} r.

(** Lines 137-165: the loop over the jobs still to scan. *)
Fixpoint scan (user queue state name : string) (todo : list (string * value))
  (filtered_json : list (string * value)) (sp : spacing)
  : run (list (string * value)) (list (string * value) * spacing) :=
  match todo with
  | [] => Run [] [] (Ok (filtered_json, sp))
  | (jobid, job) :: rest =>
      match normalize_name job with
      | Raise e => Run todo [] (Raise e)
      | Ok job' =>
          match guarded user queue state name jobid job' filtered_json sp with
          | Ok (filtered_json', sp') =>
              let r := scan user queue state name rest filtered_json' sp' in
              Run ((jobid, job') :: store r) (printed r) (returned r)
          | Raise TypeError =>
              Run ((jobid, job') :: rest) [job'] (Raise (SystemExit 1))
          | Raise e =>
              Run ((jobid, job') :: rest) [] (Raise e)
          end
      end
  end.

Definition filter_json (json_data : value) (user queue state name : string)
  : run value (list (string * value) * spacing) :=
  match jobs <- Py.getitem json_data "Jobs" ;; Py.items jobs with
  | Raise e => Run json_data [] (Raise e)
  | Ok jobs =>
      let r := scan user queue state name jobs [] (initial_spacing user queue) in
      Run (Py.setitem json_data "Jobs" (VDict (store r))) (printed r) (returned r)
  end.

(** *** Table renderer *)

Definition ESC : string := String (ascii_of_N 27) EmptyString.
Definition NL : string := String (ascii_of_N 10) EmptyString.

(** Lines 171-172: every width is incremented in place. *)
Definition pad_spacing (sp : spacing) : spacing :=
  let '(Spacing u q s nm m nc j w ce me) := sp in
  Spacing (u + 1) (q + 1) (s + 1) (nm + 1) (m + 1) (nc + 1) (j + 1) (w + 1)
          (ce + 1) (me + 1).

(** Lines 173-182. *)
Definition header (sp : spacing) : string :=
  ESC ++ "[1;32;40m" ++ center "JobID" (sp_jobid sp) ++
  center "JobName" (sp_name sp) ++
  center "Mem" (sp_mem sp) ++
  center "CPUs" (sp_ncpus sp) ++
  center "User" (sp_user sp) ++
  center "Queue" (sp_queue sp) ++
  center "State" (sp_state sp) ++
  center "Walltime" (sp_walltime sp) ++
  center "%CPU" (sp_cpu_efficiency sp) ++
  center "%MEM" (sp_mem_efficiency sp) ++ ESC ++ "[00m" ++ NL.

(** Lines 185-199: the text of one row. *)
Definition row (sp : spacing) (key : string) (v : value) : result string :=
  rl <- Py.getitem v "Resource_List" ;;
  walltime <- convert_walltime v rl ;;
  rl <- Py.getitem v "Resource_List" ;;
  cpu_efficiency <- convert_cpu_efficiency v rl ;;
  rl <- Py.getitem v "Resource_List" ;;
  mem_efficiency <- convert_mem_efficiency v rl ;;
  let c0 := center (replace ".pbs02" "" key) (sp_jobid sp) in
  nm <- Py.getitem v "Job_Name" ;;
  c1 <- Py.format_center nm (sp_name sp) ;;
  rl <- Py.getitem v "Resource_List" ;;
  m <- Py.getitem rl "mem" ;;
  c2 <- Py.format_center m (sp_mem sp) ;;
  rl <- Py.getitem v "Resource_List" ;;
  nc <- Py.getitem rl "ncpus" ;;
  c3 <- Py.format_center nc (sp_ncpus sp) ;;
  owner <- Py.getitem v "Job_Owner" ;;
  owner_parts <- Py.split owner "@" ;;
  login <- Py.index owner_parts 0 ;;
  let c4 := center login (sp_user sp) in
  q <- Py.getitem v "queue" ;;
  c5 <- Py.format_center q (sp_queue sp) ;;
  st <- Py.getitem v "job_state" ;;
  c6 <- Py.format_center st (sp_state sp) ;;
  let c7 := center walltime (sp_walltime sp) in
  let c8 := center cpu_efficiency (sp_cpu_efficiency sp) in
  let c9 := center mem_efficiency (sp_mem_efficiency sp) in
  Ok (c0 ++ c1 ++ c2 ++ c3 ++ c4 ++ c5 ++ c6 ++ c7 ++ c8 ++ c9 ++ ESC ++ "[00m" ++ NL).

(** Lines 183-204: the rows, bright and normal in turn. *)
Fixpoint rows (sp : spacing) (todo : list (string * value)) (even : nat)
  (csv_table : string) : result string :=
  match todo with
  | [] => Ok csv_table
  | (key, v) :: rest =>
      job <- row sp key v ;;
      let csv_table :=
        if Nat.even even
        then csv_table ++ ESC ++ "[1;37;48m" ++ job
        else csv_table ++ ESC ++ "[0;37;48m" ++ job in
      rows sp rest (even + 1) csv_table
  end.

(** [generate_table]: the width table it was given is left incremented,
    whether or not the rendering succeeds. *)
Definition generate_table (json_data : value) (sp : spacing)
  : spacing * result string :=
  let sp := pad_spacing sp in
  (sp, todo <- Py.items json_data ;; rows sp todo 0 (header sp)).

(** *** Summary *)

(** A [dict] whose keys are JSON scalars: lists and dictionaries cannot
    be hashed; numbers are compared by value. *)
Definition hashable (v : value) : bool :=
  match v with
  | VList _ | VDict _ => false
  | _ => true
  end.

Definition key_eqb (a b : value) : bool :=
  match a, b with
  | VStr s, VStr t => String.eqb s t
  | VNone, VNone => true
  | _, _ =>
      match Py.as_int a, Py.as_int b with
      | Some x, Some y => Z.eqb x y
      | _, _ => false
      end
  end.

Fixpoint counts_find (k : value) (d : list (value * Z)) : option Z :=
  match d with
  | [] => None
  | (k', n) :: rest => if key_eqb k' k then Some n else counts_find k rest
  end.

Fixpoint counts_put (k : value) (n : Z) (d : list (value * Z)) : list (value * Z) :=
  match d with
  | [] => [(k, n)]
  | (k', n') :: rest =>
      if key_eqb k' k then (k', n) :: rest else (k', n') :: counts_put k n rest
  end.

(** [d[k]] and [d[k] = n] *)
Definition counts_get (k : value) (d : list (value * Z)) : result Z :=
  if hashable k then
    match counts_find k d with
    | Some n => Ok n
    | None => Raise KeyError
    end
  else Raise TypeError.

Definition counts_set (k : value) (n : Z) (d : list (value * Z))
  : result (list (value * Z)) :=
  if hashable k then Ok (counts_put k n d) else Raise TypeError.

(** [repr] of such a dictionary. *)
Definition counts_repr (d : list (value * Z)) : string :=
  "{" ++ join ", " (map (fun kn => Py.repr (fst kn) ++ ": " ++ str_of_int (snd kn)) d)
      ++ "}".

(** Lines 58-61. *)
Definition count_queue (v : value) (queue_job_counts : list (value * Z))
  : result (list (value * Z)) :=
  except_KeyError
    (q <- Py.getitem v "queue" ;;
     n <- counts_get q queue_job_counts ;;
     counts_set q (n + 1) queue_job_counts)
    (q <- Py.getitem v "queue" ;;
     counts_set q 1 queue_job_counts).

(** Lines 62-65: the count is read under the state as it is, and stored
    under the state without its trailing blanks. *)
Definition count_state (v : value) (job_state_counts : list (value * Z))
  : result (list (value * Z)) :=
  except_KeyError
    (st <- Py.getitem v "job_state" ;;
     n <- counts_get st job_state_counts ;;
     k <- Py.rstrip st ;;
     counts_set (VStr k) (n + 1) job_state_counts)
    (n <- counts_get (VStr "Other") job_state_counts ;;
     counts_set (VStr "Other") (n + 1) job_state_counts).

(** Lines 57-65. *)
Fixpoint count_jobs (todo : list (string * value))
  (queue_job_counts job_state_counts : list (value * Z))
  : result (list (value * Z) * list (value * Z)) :=
  match todo with
  | [] => Ok (queue_job_counts, job_state_counts)
  | (_, v) :: rest =>
      qc <- count_queue v queue_job_counts ;;
      sc <- count_state v job_state_counts ;;
      count_jobs rest qc sc
  end.

Definition initial_state_counts : list (value * Z) :=
  [(VStr "R", 0%Z); (VStr "Q", 0%Z); (VStr "Other", 0%Z)].

(** The three parts of the summary, before they are put in one line. *)
Record summary : Type := Summary {
  number_jobs : nat;
  queue_job_counts : list (value * Z);
  job_state_counts : list (value * Z)
}.

Definition summary_text (s : summary) : string :=
  "NumberOfJobs:" ++ str_of_int (Z.of_nat (number_jobs s)) ++
  "  JobsPerQueue:" ++ counts_repr (queue_job_counts s) ++ "  " ++
  "JobStates:" ++ counts_repr (job_state_counts s).

(** [summarize_json]: the loop of line 57 runs over the module-level
    name [json_data], first argument here; the parameter [filtered_json]
    is only measured. *)
Definition summarize (json_data : value) (filtered_json : value) : result summary :=
  n <- Py.len filtered_json ;;
  todo <- Py.items json_data ;;
  counts <- count_jobs todo [] initial_state_counts ;;
  Ok (Summary n (fst counts) (snd counts)).

Definition summarize_json (json_data : value) (filtered_json : value) : result string :=
  s <- summarize json_data filtered_json ;;
  Ok (summary_text s).

(** Lines 213-219: [json_data] is bound again to the filtered mapping,
    which is then passed to [summarize_json]. *)
Definition main_summary (qstat : value) (user queue state name : string)
  : result string :=
  fs <- returned (filter_json qstat user queue state name) ;;
  let json_data := VDict (fst fs) in
  summarize_json json_data json_data.

(** *** The script *)

(** Lines 116-120. *)
Definition fill_none (variable : option string) : string :=
  match variable with
  | None => ""
  | Some s => s
  end.

(** The four options of lines 19-28, each a text or [None]. *)
Record arguments : Type := Arguments {
  arg_user : option string;
  arg_queue : option string;
  arg_state : option string;
  arg_name : option string
}.

(** The truth value of an option: [None] and the empty text are false. *)
Definition truthy (v : option string) : bool :=
  match v with
  | Some s => negb (String.eqb s "")
  | None => false
  end.

(** Lines 220 and 224: the summary line, in red after the time. *)
Definition banner (now json_summary : string) : string :=
  ESC ++ "[1;31;48m" ++ now ++ "  " ++ json_summary ++ ESC ++ "[00m".

(** Lines 209-224, from the parsed options and the decoded answer of
    [get_qstat_json]; [now] and [later] are the two readings of the clock.
    The result is what was printed on the standard output, one text per
    [print], and how the script ended; [parser.error] ends it with status
    2 and prints nothing there. *)
Definition main (args : arguments) (qstat : value) (now later : string)
  : list string * result unit :=
  if negb (truthy (arg_user args) || truthy (arg_queue args))%bool
  then ([], Raise (SystemExit 2))
  else
    let r := filter_json qstat (fill_none (arg_user args)) (fill_none (arg_queue args))
                         (fill_none (arg_state args)) (fill_none (arg_name args)) in
    let out := map Py.str (printed r) in
    match returned r with
    | Raise e => (out, Raise e)
    | Ok (filtered_json, sp) =>
        let json_data := VDict filtered_json in
        match summarize_json json_data json_data with
        | Raise e => (out, Raise e)
        | Ok json_summary =>
            let out := (out ++ [banner now json_summary])%list in
            match snd (generate_table json_data sp) with
            | Raise e => (out, Raise e)
            | Ok data_table =>
                let out := (out ++ [data_table])%list in
                if Nat.ltb 30 (List.length filtered_json)
                then ((out ++ [banner later json_summary])%list, Ok tt)
                else (out, Ok tt)
            end
        end
    end.

End Que.

(** * Properties *)

Import PyStr PyNum Que.

(** ** Definitions used in the statements *)

(** The state test as the specification words it: the criterion, without
    regard to case, is a part of the job's state once its trailing blanks
    are removed. *)
Definition state_matches_spec (state job_state : string) : bool :=
  PyStr.contains (lower state) (lower (rstrip job_state)).

Definition is_text (r : result value) : bool :=
  match r with
  | Ok (VStr _) => true
  | _ => false
  end.

(** The job as lines 138-139 leave it. *)
Definition normalized (job : value) : value :=
  match normalize_name job with
  | Ok job' => job'
  | Raise _ => job
  end.


Definition retained (jobs : list (string * value)) : list (string * value) :=
  map (fun kv => (fst kv, normalized (snd kv))) jobs.



(** One iteration of the loop of [filter_json], before the [except]. *)
Definition job_step (user queue state name jobid : string) (job : value)
  (filtered_json : list (string * value)) (sp : spacing)
  : result (list (string * value) * spacing) :=
  job' <- normalize_name job ;;
  guarded user queue state name jobid job' filtered_json sp.




Definition fits_labels (sp : spacing) : Prop :=
  forall c, String.length (label c) <= width sp c.

Definition no_narrower (sp sp' : spacing) : Prop :=
  forall c, width sp c <= width sp' c.

(** ** Definitions used in the further properties *)

(** The verdict of lines 141-144 on an entry, an error counting as no. *)
Definition selects (user queue state name : string) (kv : string * value) : bool :=
  match job_matches user queue state name (snd kv) with
  | Ok true => true
  | _ => false
  end.

(** The seven cells of a job that the filter measures are no longer than
    the widths [sp] gives their columns. *)
Definition fits (sp : spacing) (job : value) : Prop :=
  exists nm rl m q nc wt ce me n_name n_mem n_queue,
    Py.getitem job "Job_Name" = Ok nm /\ Py.len nm = Ok n_name /\
    n_name <= width sp c_name /\
    Py.getitem job "Resource_List" = Ok rl /\
    Py.getitem rl "mem" = Ok m /\ Py.len m = Ok n_mem /\ n_mem <= width sp c_mem /\
    Py.getitem job "queue" = Ok q /\ Py.len q = Ok n_queue /\
    n_queue <= width sp c_queue /\
    convert_walltime job rl = Ok wt /\ String.length wt <= width sp c_walltime /\
    Py.getitem rl "ncpus" = Ok nc /\
    String.length (Py.str nc) <= width sp c_ncpus /\
    convert_cpu_efficiency job rl = Ok ce /\
    String.length ce <= width sp c_cpu_efficiency /\
    convert_mem_efficiency job rl = Ok me /\
    String.length me <= width sp c_mem_efficiency.

(** Name, owner, queue and state are texts. *)
Definition text_fields (job : value) : bool :=
  (is_text (Py.getitem job "Job_Name") && is_text (Py.getitem job "Job_Owner")
   && is_text (Py.getitem job "queue") && is_text (Py.getitem job "job_state"))%bool.

(** A named job whose owner is a text that does not contain [user]. *)
Definition owned_by_others (user : string) (kv : string * value) : Prop :=
  exists nm owner,
    Py.getitem (snd kv) "Job_Name" = Ok nm /\
    Py.getitem (snd kv) "Job_Owner" = Ok (VStr owner) /\
    PyStr.contains user owner = false.

(** Row texts one after the other, each behind its colour, bright when
    the counter is even. *)
Fixpoint colored (even : nat) (texts : list string) : string :=
  match texts with
  | [] => ""
  | t :: rest =>
      ESC ++ (if Nat.even even then "[1;37;48m" else "[0;37;48m") ++ t
          ++ colored (even + 1) rest
  end.

Definition rendered (sp : spacing) (kv : string * value) (text : string) : Prop :=
  row sp (fst kv) (snd kv) = Ok text.

(** The login, the state and the shortened job id are the three cells
    whose columns the filter does not size. *)
Definition login_of (job : value) : string :=
  match Py.getitem job "Job_Owner" with
  | Ok (VStr owner) => hd "" (PyStr.split "@" owner)
  | _ => ""
  end.

Definition state_of (job : value) : string :=
  match Py.getitem job "job_state" with
  | Ok (VStr st) => st
  | _ => ""
  end.

Definition fixed_cells_fit (sp : spacing) (kv : string * value) : Prop :=
  String.length (PyStr.replace ".pbs02" "" (fst kv)) <= width sp c_jobid + 1 /\
  String.length (login_of (snd kv)) <= width sp c_user + 1 /\
  String.length (state_of (snd kv)) <= width sp c_state + 1.

(** The sum of the counts of a dictionary. *)
Definition total (d : list (value * Z)) : Z :=
  fold_right (fun kn acc => (snd kn + acc)%Z) 0%Z d.

Definition in_state (st : string) (kv : string * value) : bool :=
  match Py.getitem (snd kv) "job_state" with
  | Ok (VStr s) => String.eqb st s
  | _ => false
  end.

Definition in_queue (q : string) (kv : string * value) : bool :=
  match Py.getitem (snd kv) "queue" with
  | Ok (VStr s) => String.eqb q s
  | _ => false
  end.

Definition how_many (p : string * value -> bool) (todo : list (string * value)) : Z :=
  Z.of_nat (List.length (filter p todo)).

Definition known (o : option Z) : Z :=
  match o with
  | Some n => n
  | None => 0%Z
  end.

Definition b2z (b : bool) : Z := if b then 1%Z else 0%Z.

(** The units lines 105-111 name. *)
Definition known_units (units : string) : bool :=
  (String.eqb (lower units) "gb" || String.eqb (lower units) "mb"
   || String.eqb (lower units) "kb" || String.eqb (lower units) "0b")%bool.

(** ** Sample jobs *)

Definition resources (m w : string) (n : Z) : value :=
  VDict [("mem", VStr m); ("ncpus", VInt n); ("walltime", VStr w)].

Definition usage (cpupercent : Z) (m w : string) : value :=
  VDict [("cpupercent", VInt cpupercent); ("mem", VStr m); ("walltime", VStr w)].

Definition job_fields (nm owner st q rl : value) : list (string * value) :=
  [("Job_Name", nm); ("Job_Owner", owner); ("job_state", st); ("queue", q);
   ("Resource_List", rl)].

Definition queued_fields : list (string * value) :=
  job_fields (VStr "sim") (VStr "alice@node1") (VStr "Q") (VStr "batch")
             (resources "16gb" "2:00:00" 2).

(** A job waiting in the queue: no [resources_used]. *)
Definition sim_job : value := VDict queued_fields.

Definition running_job : value :=
  VDict (job_fields (VStr "train") (VStr "bob@node2") (VStr "R") (VStr "gpu")
                    (resources "16gb" "2:00:00" 2)
         ++ [("resources_used", usage 200 "8388608kb" "1:30:00")])%list.



Definition lower_state_job : value :=
  VDict (job_fields (VStr "sim") (VStr "alice@node1") (VStr "r") (VStr "batch")
                    (resources "16gb" "2:00:00" 2)).

Definition blank_state_job : value :=
  VDict (job_fields (VStr "sim") (VStr "alice@node1") (VStr "R ") (VStr "batch")
                    (resources "16gb" "2:00:00" 2)).

Definition null_owner_job : value :=
  VDict (job_fields (VStr "sim") VNone (VStr "Q") (VStr "batch")
                    (resources "16gb" "2:00:00" 2)).

Definition no_queue_job : value :=
  VDict [("Job_Name", VStr "sim"); ("Job_Owner", VStr "alice@node1");
         ("job_state", VStr "Q"); ("Resource_List", resources "16gb" "2:00:00" 2)].


Definition payload (jobs : list (string * value)) : value :=
  VDict [("Jobs", VDict jobs)].

Definition sample_widths : spacing :=
  Eval vm_compute in
    match returned (filter_json (payload [("1.pbs02", sim_job); ("2.pbs02", running_job)])
                      "" "" "" "") with
    | Ok r => snd r
    | Raise _ => initial_spacing "" ""
    end.

Definition sample_table : string :=
  Eval vm_compute in
    match snd (generate_table (VDict [("1.pbs02", sim_job)]) (initial_spacing "" "")) with
    | Ok t => t
    | Raise _ => ""
    end.

Definition two_jobs : list (string * value) :=
  [("1.pbs02", sim_job); ("2.pbs02", running_job)].

Definition zero_cpu_job : value :=
  VDict (job_fields (VStr "sim") (VStr "alice@node1") (VStr "Q") (VStr "batch")
                    (resources "16gb" "2:00:00" 0)).

(** What the filter returns for alice on [two_jobs], and the table and
    the output of the script that follow. *)
Definition alice_widths : spacing :=
  Eval vm_compute in
    match returned (filter_json (payload two_jobs) "alice" "" "" "") with
    | Ok r => snd r
    | Raise _ => initial_spacing "alice" ""
    end.

Definition alice_table : string :=
  Eval vm_compute in
    match snd (generate_table (VDict [("1.pbs02", sim_job)]) alice_widths) with
    | Ok t => t
    | Raise _ => ""
    end.

Definition two_jobs_summary : summary :=
  Eval vm_compute in
    match summarize (VDict two_jobs) (VDict two_jobs) with
    | Ok s => s
    | Raise _ => Summary 0 [] []
    end.

Definition alice_args : arguments := Arguments (Some "alice") None None None.

Definition alice_summary_text : string :=
  Eval vm_compute in
    match main_summary (payload two_jobs) "alice" "" "" "" with
    | Ok t => t
    | Raise _ => ""
    end.

Definition alice_output : list string :=
  Eval vm_compute in fst (main alice_args (payload two_jobs) "12:00" "12:01").

Lemma bind_ok {A B : Type} (r : result A) (k : A -> result B) (b : B) :
  bind r k = Ok b -> exists a, r = Ok a /\ k a = Ok b.
Proof. destruct r; simpl; intros H; [eauto | discriminate]. Qed.

(** Inversion of a successful [bind] in hypothesis [H]. *)
Ltac bind_inv H :=
  let a := fresh "x" in
  let Ha := fresh "E" in
  apply bind_ok in H; destruct H as (a & Ha & H).

(** ** The worked examples of the design notes *)

Example walltime_example :
  convert_walltime running_job (resources "16gb" "2:00:00" 2) = Ok "1:30/2:00 (75%)".
Proof. vm_compute. reflexivity. Qed.

Example cpu_example :
  convert_cpu_efficiency running_job (resources "16gb" "2:00:00" 2) = Ok "100%".
Proof. vm_compute. reflexivity. Qed.

Example mem_example :
  convert_mem_efficiency running_job (resources "16gb" "2:00:00" 2) = Ok " 50%".
Proof. vm_compute. reflexivity. Qed.

Example end_to_end_example :
  let doc := payload [("1.pbs02", sim_job); ("2.pbs02", running_job)] in
  (exists sp, returned (filter_json doc "alice" "" "" "") = Ok ([("1.pbs02", sim_job)], sp)) /\
  main_summary doc "alice" "" "" ""
  = Ok "NumberOfJobs:1  JobsPerQueue:{'batch': 1}  JobStates:{'R': 0, 'Q': 1, 'Other': 0}".
Proof. split; [eexists|]; vm_compute; reflexivity. Qed.

(** ** Dictionaries *)

Section Dictionaries.
Context {A : Type}.
Implicit Types (k : string) (v : A) (d : list (string * A)).

Lemma dict_get_set_other k k' v d :
  k <> k' -> dict_get k (dict_set k' v d) = dict_get k d.
Proof.
  intros Hk. induction d as [|[k0 v0] d IH]; simpl.
  - destruct (String.eqb_spec k' k); [congruence | reflexivity].
  - destruct (String.eqb_spec k0 k') as [->|Hne]; simpl.
    + destruct (String.eqb_spec k' k); [congruence | reflexivity].
    + destruct (String.eqb_spec k0 k); [reflexivity | exact IH].
Qed.

Lemma dict_set_same k v d : dict_get k d = Some v -> dict_set k v d = d.
Proof.
  induction d as [|[k0 v0] d IH]; simpl; [discriminate|].
  destruct (String.eqb_spec k0 k) as [->|Hne].
  - intros [= ->]. reflexivity.
  - intros H. now rewrite IH.
Qed.

Lemma dict_set_fresh k v d :
  ~ In k (keys d) -> dict_set k v d = (d ++ [(k, v)])%list.
Proof.
  induction d as [|[k0 v0] d IH]; simpl; intros H; [reflexivity|].
  destruct (String.eqb_spec k0 k) as [->|Hne].
  - destruct H. now left.
  - f_equal. apply IH. intros Hin. apply H. now right.
Qed.
End Dictionaries.

Lemma getitem_setitem_other job k k' v :
  k <> k' -> Py.getitem (Py.setitem job k' v) k = Py.getitem job k.
Proof.
  intros Hk. destruct job; try reflexivity.
  simpl. now rewrite dict_get_set_other.
Qed.


(** ** Column widths only grow *)

Lemma grow_le c n sp d : width sp d <= width (grow c n sp) d.
Proof. unfold grow. destruct sp, c, d; simpl; lia. Qed.

Lemma update_spacing_le job sp sp' :
  update_spacing job sp = Ok sp' -> forall c, width sp c <= width sp' c.
Proof.
  unfold update_spacing. intros H c.
  repeat bind_inv H.
  injection H as <-.
  repeat (etransitivity; [ | apply grow_le ]). reflexivity.
Qed.


Lemma label_fits_initial user queue c :
  String.length (label c) <= width (initial_spacing user queue) c.
Proof.
  destruct c; cbn -[Nat.max];
    try (etransitivity; [ | apply Nat.le_max_l ]); repeat constructor.
Qed.

Lemma width_pad sp c : width (pad_spacing sp) c = width sp c + 1.
Proof. destruct sp, c; reflexivity. Qed.

Lemma pad_no_narrower sp : no_narrower sp (pad_spacing sp).
Proof. intros c. rewrite width_pad. lia. Qed.

(** ** Renaming of numeric job names *)

Lemma normalize_name_cases job job' :
  normalize_name job = Ok job' ->
  job' = job \/
  exists z, Py.getitem job "Job_Name" = Ok (VInt z) /\
            job' = Py.setitem job "Job_Name" (VStr (str_of_int z)).
Proof.
  unfold normalize_name. intros H. bind_inv H.
  destruct x; try (injection H as <-; now left).
  injection H as <-. right. now exists z.
Qed.





(** ** The scan, one job after the other *)

Section Scan.
Variables user queue state name : string.

Lemma guarded_le jobid job f sp f' sp' :
  guarded user queue state name jobid job f sp = Ok (f', sp') ->
  forall c, width sp c <= width sp' c.
Proof.
  unfold guarded. intros H c. bind_inv H.
  destruct x.
  - bind_inv H. injection H as _ <-. eapply update_spacing_le; eassumption.
  - injection H as _ <-. reflexivity.
Qed.

Lemma scan_ok_cons jobid job rest f sp r :
  returned (scan user queue state name ((jobid, job) :: rest) f sp) = Ok r ->
  exists job' f' sp',
    normalize_name job = Ok job' /\
    guarded user queue state name jobid job' f sp = Ok (f', sp') /\
    returned (scan user queue state name rest f' sp') = Ok r.
Proof.
  cbn [scan]. destruct (normalize_name job) as [job'|e]; [|discriminate].
  destruct (guarded user queue state name jobid job' f sp) as [[f' sp']|e] eqn:G.
  - cbn [returned]. intros H. now exists job', f', sp'.
  - destruct e; discriminate.
Qed.

Lemma scan_cons_ok jobid job rest f sp job' f' sp' :
  normalize_name job = Ok job' ->
  guarded user queue state name jobid job' f sp = Ok (f', sp') ->
  returned (scan user queue state name ((jobid, job) :: rest) f sp)
  = returned (scan user queue state name rest f' sp').
Proof. intros H1 H2. cbn [scan]. rewrite H1, H2. reflexivity. Qed.

(** A scan that returns has returned on every prefix of the jobs. *)
Lemma scan_app pre suf f sp r :
  returned (scan user queue state name (pre ++ suf) f sp) = Ok r ->
  exists f1 sp1,
    returned (scan user queue state name pre f sp) = Ok (f1, sp1) /\
    returned (scan user queue state name suf f1 sp1) = Ok r.
Proof.
  revert f sp. induction pre as [|[jobid job] pre IH]; intros f sp H.
  - now exists f, sp.
  - rewrite <- app_comm_cons in H.
    apply scan_ok_cons in H. destruct H as (job' & f' & sp' & H1 & H2 & H3).
    destruct (IH _ _ H3) as (f1 & sp1 & H4 & H5).
    exists f1, sp1. split; [|exact H5].
    erewrite scan_cons_ok by eassumption. exact H4.
Qed.

Lemma scan_app_ok pre suf :
  forall f sp f1 sp1,
    returned (scan user queue state name pre f sp) = Ok (f1, sp1) ->
    returned (scan user queue state name (pre ++ suf) f sp)
    = returned (scan user queue state name suf f1 sp1) /\
    printed (scan user queue state name (pre ++ suf) f sp)
    = printed (scan user queue state name suf f1 sp1).
Proof.
  induction pre as [|[jobid job] pre IH]; intros f sp f1 sp1 H.
  - simpl in H. injection H as -> ->. now split.
  - apply scan_ok_cons in H. destruct H as (job' & f' & sp' & H1 & H2 & H3).
    rewrite <- app_comm_cons. cbn [scan]. rewrite H1, H2. cbn [returned printed].
    now apply IH.
Qed.

Lemma scan_le todo f sp f' sp' :
  returned (scan user queue state name todo f sp) = Ok (f', sp') ->
  forall c, width sp c <= width sp' c.
Proof.
  revert f sp. induction todo as [|[jobid job] rest IH]; intros f sp H c.
  - simpl in H. injection H as _ <-. reflexivity.
  - apply scan_ok_cons in H. destruct H as (job' & f1 & sp1 & _ & H2 & H3).
    etransitivity; [ eapply guarded_le; eassumption | eapply IH; eassumption ].
Qed.



Lemma filter_json_returned json_data jobs :
  Py.getitem json_data "Jobs" = Ok (VDict jobs) ->
  filter_json json_data user queue state name =
  let r := scan user queue state name jobs [] (initial_spacing user queue) in
  Run (Py.setitem json_data "Jobs" (VDict (store r))) (printed r) (returned r).
Proof. intros H. unfold filter_json. rewrite H. reflexivity. Qed.
End Scan.

(** ** The width table during the scan *)

(** C5.  When [filter_json] returns, the [user] and [queue] widths started
    at [max(7, len(criterion))]; the scan had returned on every prefix of
    the jobs, and of two prefixes the longer leaves every width at least as
    large as the shorter (every update is a running maximum); and every
    final width is at least the length of the column's header label. *)
Theorem spacing_grows_during_scan :
  forall json_data user queue state name jobs filtered sp,
    Py.getitem json_data "Jobs" = Ok (VDict jobs) ->
    returned (filter_json json_data user queue state name) = Ok (filtered, sp) ->
    width (initial_spacing user queue) c_user = Nat.max 7 (String.length user) /\
    width (initial_spacing user queue) c_queue = Nat.max 7 (String.length queue) /\
    (forall i j, i <= j ->
       exists fi spi fj spj,
         returned (scan user queue state name (firstn i jobs) []
                     (initial_spacing user queue)) = Ok (fi, spi) /\
         returned (scan user queue state name (firstn j jobs) []
                     (initial_spacing user queue)) = Ok (fj, spj) /\
         forall c, width spi c <= width spj c) /\
    (forall c, String.length (label c) <= width sp c).
Proof.
  intros json_data user queue state name jobs filtered sp HJ H.
  erewrite filter_json_returned in H by eassumption. cbn [returned] in H.
  split; [reflexivity|]. split; [reflexivity|]. split.
  - intros i j Hij.
    pose proof H as Hall.
    rewrite <- (firstn_skipn j jobs) in Hall.
    apply scan_app in Hall. destruct Hall as (fj & spj & Hj & _).
    pose proof Hj as Hj'.
    rewrite <- (firstn_skipn i (firstn j jobs)) in Hj'.
    apply scan_app in Hj'. destruct Hj' as (fi & spi & Hi & Hrest).
    rewrite firstn_firstn, Nat.min_l in Hi by exact Hij.
    exists fi, spi, fj, spj. repeat split; try assumption.
    intros c; eapply scan_le; eassumption.
  - intros c. etransitivity; [apply label_fits_initial | eapply scan_le; eassumption].
Qed.

(** C5 on two jobs filtered by owner: the seed of [user] is
    [max 7 5] and the final [walltime] width holds its label. *)
Lemma spacing_grows_during_scan_witness :
  width (initial_spacing "alice" "") c_user = Nat.max 7 5 /\
  String.length (label c_walltime) <= width sample_widths c_walltime.
Proof.
  destruct (spacing_grows_during_scan
              (payload [("1.pbs02", sim_job); ("2.pbs02", running_job)])
              "alice" "" "" ""
              [("1.pbs02", sim_job); ("2.pbs02", running_job)]
              [("1.pbs02", sim_job)]
              sample_widths
              eq_refl) as (Hu & _ & _ & Hl).
  - vm_compute. reflexivity.
  - split; [exact Hu | exact (Hl c_walltime)].
Defined.

(** ** What the filter does to its input *)




(** ** Empty criteria *)

Lemma prefix_empty s : String.prefix "" s = true.
Proof. destruct s; reflexivity. Qed.

Lemma contains_empty hay : PyStr.contains "" hay = true.
Proof. destruct hay; reflexivity. Qed.

Lemma is_text_inv r : is_text r = true -> exists s, r = Ok (VStr s).
Proof. destruct r as [[]|]; try discriminate. eauto. Qed.







(** ** Records of an unexpected shape *)

(** C6, as the code has it.  Let the jobs before a given job scan without
    error.  If the guarded block raises [TypeError] on that job (a field
    of the wrong kind), [filter_json] prints the job and exits with status
    1.  And whatever exception the job's iteration raises, [filter_json]
    returns no mapping: the job is never skipped. *)
Theorem filter_json_fatal_record :
  forall json_data user queue state name pre jobid job suf f1 sp1,
    Py.getitem json_data "Jobs" = Ok (VDict (pre ++ (jobid, job) :: suf)) ->
    returned (scan user queue state name pre [] (initial_spacing user queue))
    = Ok (f1, sp1) ->
    (forall job',
        normalize_name job = Ok job' ->
        guarded user queue state name jobid job' f1 sp1 = Raise TypeError ->
        returned (filter_json json_data user queue state name) = Raise (SystemExit 1) /\
        printed (filter_json json_data user queue state name) = [job']) /\
    (forall e,
        job_step user queue state name jobid job f1 sp1 = Raise e ->
        exists e', returned (filter_json json_data user queue state name) = Raise e').
Proof.
  intros json_data user queue state name pre jobid job suf f1 sp1 HJ Hpre.
  erewrite filter_json_returned by eassumption. cbn [returned printed].
  destruct (scan_app_ok user queue state name pre ((jobid, job) :: suf) _ _ _ _ Hpre)
    as [-> ->].
  split.
  - intros job' N G. cbn [scan]. rewrite N, G. now split.
  - intros e. unfold job_step. cbn [scan].
    destruct (normalize_name job) as [job'|e0]; cbn [bind].
    + intros ->. destruct e; cbn [returned]; eauto.
    + intros _. cbn [returned]. eauto.
Qed.

(** C6 on a sound job followed by a job whose owner is [null]. *)
Lemma filter_json_fatal_record_witness :
  returned (filter_json (payload [("1.pbs02", sim_job); ("2.pbs02", null_owner_job)])
              "" "" "" "") = Raise (SystemExit 1) /\
  printed (filter_json (payload [("1.pbs02", sim_job); ("2.pbs02", null_owner_job)])
              "" "" "" "") = [null_owner_job].
Proof.
  refine (proj1 (filter_json_fatal_record
            (payload [("1.pbs02", sim_job); ("2.pbs02", null_owner_job)])
            "" "" "" "" [("1.pbs02", sim_job)] "2.pbs02" null_owner_job []
            [("1.pbs02", sim_job)] sample_widths
            _ _) null_owner_job _ _); vm_compute; reflexivity.
Defined.

(** C6 fails as stated: a job without the [queue] field raises a
    [KeyError] that nothing catches; the job is not printed. *)
Lemma missing_field_is_not_reported :
  returned (filter_json (payload [("1.pbs02", no_queue_job)]) "" "" "" "")
  = Raise KeyError /\
  printed (filter_json (payload [("1.pbs02", no_queue_job)]) "" "" "" "") = [].
Proof. vm_compute. split; reflexivity. Qed.

(** ** Substrings and letter case *)

Section Substrings.
Implicit Types (a b n h pre suf s : string).

Lemma prefix_app a suf : String.prefix a (a ++ suf) = true.
Proof.
  induction a as [|c a IH]; simpl; [apply prefix_empty|].
  destruct (Ascii.ascii_dec c c); [exact IH | congruence].
Qed.

Lemma prefix_inv a b : String.prefix a b = true -> exists suf, b = a ++ suf.
Proof.
  revert b. induction a as [|c a IH]; intros b H.
  - now exists b.
  - destruct b as [|d b]; simpl in H; [discriminate|].
    destruct (Ascii.ascii_dec c d) as [->|]; [|discriminate].
    destruct (IH _ H) as (suf & ->). now exists suf.
Qed.

Lemma contains_intro n pre suf : PyStr.contains n (pre ++ n ++ suf) = true.
Proof.
  induction pre as [|c pre IH].
  - simpl. destruct (n ++ suf) eqn:E; cbn [PyStr.contains];
      rewrite <- E, prefix_app; reflexivity.
  - cbn [append PyStr.contains]. rewrite IH. apply orb_true_r.
Qed.

Lemma contains_inv n h :
  PyStr.contains n h = true -> exists pre suf, h = pre ++ n ++ suf.
Proof.
  induction h as [|c h IH]; cbn [PyStr.contains]; intros H.
  - rewrite orb_false_r in H. apply prefix_inv in H. destruct H as (suf & ->).
    now exists "", suf.
  - apply orb_prop in H. destruct H as [H|H].
    + apply prefix_inv in H. destruct H as (suf & ->). now exists "", suf.
    + destruct (IH H) as (pre & suf & ->). now exists (String c pre), suf.
Qed.

Lemma map_chars_app f a b : map_chars f (a ++ b) = map_chars f a ++ map_chars f b.
Proof. induction a as [|c a IH]; simpl; [reflexivity | now rewrite IH]. Qed.

Lemma lower_app a b : lower (a ++ b) = lower a ++ lower b.
Proof. apply map_chars_app. Qed.

Lemma upper_app a b : upper (a ++ b) = upper a ++ upper b.
Proof. apply map_chars_app. Qed.

Lemma lower_upper_char c : lower_char (upper_char c) = lower_char c.
Proof. destruct c as [[] [] [] [] [] [] [] []]; reflexivity. Qed.

Lemma upper_lower_char c : upper_char (lower_char c) = upper_char c.
Proof. destruct c as [[] [] [] [] [] [] [] []]; reflexivity. Qed.

Lemma lower_upper s : lower (upper s) = lower s.
Proof.
  unfold lower, upper. induction s as [|c s IH]; cbn [map_chars]; [reflexivity|].
  now rewrite lower_upper_char, IH.
Qed.

Lemma upper_lower s : upper (lower s) = upper s.
Proof.
  unfold lower, upper. induction s as [|c s IH]; cbn [map_chars]; [reflexivity|].
  now rewrite upper_lower_char, IH.
Qed.

Lemma append_empty_r s : s ++ "" = s.
Proof. induction s as [|c s IH]; simpl; [reflexivity | now rewrite IH]. Qed.

Lemma length_app a b : String.length (a ++ b) = String.length a + String.length b.
Proof. induction a as [|c a IH]; simpl; [reflexivity | now rewrite IH]. Qed.

Lemma drop_length_app a b : drop (String.length a) (a ++ b) = b.
Proof. induction a as [|c a IH]; simpl; [now destruct b | exact IH]. Qed.

Lemma take_length_app a b : take (String.length a) (a ++ b) = a.
Proof. induction a as [|c a IH]; simpl; [now destruct b | now rewrite IH]. Qed.
End Substrings.

Lemma bool_eq_iff (a b : bool) : (a = true <-> b = true) -> a = b.
Proof. destruct a, b; intuition congruence. Qed.

Lemma upper_case_state_agrees state js :
  upper js = js -> rstrip js = js ->
  state_matches state js = state_matches_spec state js.
Proof.
  intros Hu Hr. unfold state_matches, state_matches_spec. rewrite Hr.
  apply bool_eq_iff. split; intros H; apply contains_inv in H;
    destruct H as (pre & suf & H).
  - rewrite H, !lower_app, lower_upper. apply contains_intro.
  - rewrite <- Hu, <- (upper_lower js), H, !upper_app, upper_lower.
    apply contains_intro.
Qed.

(** C4, as the code has it.  On a job whose four fields are texts and
    with the other criteria empty, the verdict of the filter is the state
    test [state_matches]: the criterion in upper case is a part of the
    job's state exactly as stored.  The state itself is neither folded to
    one case nor stripped; when it is already in upper case and has no
    trailing blank, the test is the one the specification words. *)
Theorem state_test_is_upper_substring :
  forall state job owner q js nm,
    Py.getitem job "Job_Owner" = Ok (VStr owner) ->
    Py.getitem job "queue" = Ok (VStr q) ->
    Py.getitem job "job_state" = Ok (VStr js) ->
    Py.getitem job "Job_Name" = Ok (VStr nm) ->
    job_matches "" "" state "" job = Ok (state_matches state js) /\
    (state_matches state js = true <-> exists pre suf, js = pre ++ upper state ++ suf) /\
    (upper js = js -> rstrip js = js ->
     state_matches state js = state_matches_spec state js).
Proof.
  intros state job owner q js nm Ho Hq Hs Hn. split; [|split].
  - unfold job_matches. rewrite Ho, Hq, Hs, Hn. cbn [bind Py.contains].
    rewrite !contains_empty. cbn [negb]. fold (state_matches state js).
    now destruct (state_matches state js).
  - split.
    + apply contains_inv.
    + intros (pre & suf & ->). apply contains_intro.
  - apply upper_case_state_agrees.
Qed.

(** C4 on a running job and the criterion [r]. *)
Lemma state_test_is_upper_substring_witness :
  job_matches "" "" "r" "" running_job = Ok true /\
  state_matches "r" "R" = state_matches_spec "r" "R".
Proof.
  destruct (state_test_is_upper_substring "r" running_job "bob@node2" "gpu" "R" "train"
              eq_refl eq_refl eq_refl eq_refl) as (Hm & _ & Hs).
  split; [exact Hm | apply Hs; reflexivity].
Defined.

(** C4 fails as stated: a state stored as [r] does not match the
    criterion [r], though it does without regard to case; and a blank
    criterion matches the state ["R "], though not the stripped state. *)
Lemma state_test_keeps_case_and_blanks :
  job_matches "" "" "r" "" lower_state_job = Ok false /\
  state_matches_spec "r" "r" = true /\
  job_matches "" "" " " "" blank_state_job = Ok true /\
  state_matches_spec " " "R " = false.
Proof. repeat split. Qed.

(** ** The memory converter and the suffix [0b] *)

Section DigitStrings.

Lemma digit_char_facts c :
  is_digit c = true ->
  is_space c = false /\ Ascii.eqb c "_" = false /\ is_exp_mark c = false /\
  is_point c = false /\ lower_char c = c /\
  Ascii.eqb c "i" = false /\ Ascii.eqb c "n" = false.
Proof.
  destruct c as [[] [] [] [] [] [] [] []]; intros H; try discriminate H;
    repeat split.
Qed.

Lemma split_sign_digit c t :
  is_digit c = true -> split_sign (String c t) = (false, String c t).
Proof.
  destruct c as [[] [] [] [] [] [] [] []]; intros H; try discriminate H; reflexivity.
Qed.

Lemma all_chars_weaken (p q : ascii -> bool) s :
  (forall c, p c = true -> q c = true) ->
  all_chars p s = true -> all_chars q s = true.
Proof.
  intros Hpq. induction s as [|c s IH]; [reflexivity|]. cbn [all_chars]. intros H.
  apply andb_prop in H. destruct H as [Hc Hs]. now rewrite (Hpq _ Hc), IH.
Qed.

Lemma rstrip_no_space s :
  all_chars (fun c => negb (is_space c)) s = true -> rstrip s = s.
Proof.
  induction s as [|c s IH]; [reflexivity|]. cbn [all_chars rstrip]. intros H.
  apply andb_prop in H. destruct H as [Hc Hs]. rewrite (IH Hs).
  destruct s; [|reflexivity].
  now destruct (is_space c).
Qed.

Lemma strip_digits s : all_chars is_digit s = true -> strip s = s.
Proof.
  intros H. unfold strip.
  assert (L : lstrip s = s).
  { destruct s as [|c s]; [reflexivity|]. cbn [all_chars] in H.
    apply andb_prop in H. destruct H as [Hc _].
    cbn [lstrip]. now rewrite (proj1 (digit_char_facts c Hc)). }
  rewrite L. apply rstrip_no_space.
  apply all_chars_weaken with (p := is_digit); [|exact H].
  intros c Hc. now rewrite (proj1 (digit_char_facts c Hc)).
Qed.

Lemma drop_underscores_digits s :
  forall prev, all_chars is_digit s = true -> drop_underscores prev s = Some s.
Proof.
  induction s as [|c s IH]; intros prev H; [reflexivity|].
  cbn [all_chars] in H. apply andb_prop in H. destruct H as [Hc Hs].
  cbn [drop_underscores].
  destruct (digit_char_facts c Hc) as (_ & -> & _).
  now rewrite IH.
Qed.


Lemma is_digits_inv s : is_digits s = true -> s <> "" /\ all_chars is_digit s = true.
Proof.
  unfold is_digits. intros H. apply andb_prop in H. destruct H as [Hne Hd].
  split; [|exact Hd]. intros ->. discriminate.
Qed.

End DigitStrings.

Lemma mem_units_suffix prefix c d :
  mem_units (prefix ++ String c (String d "")) = String c (String d "").
Proof.
  unfold mem_units. rewrite length_app. cbn [String.length].
  replace (String.length prefix + 2 - 2) with (String.length prefix) by lia.
  apply drop_length_app.
Qed.

Lemma mem_amount_suffix prefix c d :
  mem_amount (prefix ++ String c (String d "")) = float_of_str prefix.
Proof.
  unfold mem_amount. rewrite length_app. cbn [String.length].
  replace (String.length prefix + 2 - 2) with (String.length prefix) by lia.
  now rewrite take_length_app.
Qed.



(** C2 does not hold of the code: with a requested memory of exactly
    ["0b"] the number in front of the units is the empty text, [float]
    rejects it, and the converter raises [ValueError] before it compares
    the units with ["0b"]. *)
Theorem zero_b_alone_raises :
  forall used_mem total_mem used,
    used_mem_of used_mem = Ok used ->
    Py.getitem total_mem "mem" = Ok (VStr "0b") ->
    convert_mem_efficiency used_mem total_mem = Raise ValueError.
Proof.
  intros used_mem total_mem used Hu Hm.
  unfold convert_mem_efficiency. rewrite Hu, Hm. reflexivity.
Qed.

(** C2 on a queued job that requested ["0b"]. *)
Lemma zero_b_alone_raises_witness :
  convert_mem_efficiency sim_job (resources "0b" "2:00:00" 2) = Raise ValueError.
Proof.
  refine (zero_b_alone_raises sim_job (resources "0b" "2:00:00" 2) 0%Z _ _);
    vm_compute; reflexivity.
Defined.

(** ** Jobs without usage data *)







(** ** Rendering twice *)

Lemma length_repeat_char c n : String.length (repeat_char c n) = n.
Proof. induction n as [|n IH]; simpl; [reflexivity | now rewrite IH]. Qed.

Lemma length_center s w : String.length (center s w) = Nat.max (String.length s) w.
Proof.
  unfold center. rewrite !length_app, !length_repeat_char, Nat.div2_div.
  pose proof (Nat.Div0.div_le_upper_bound (w - String.length s) 2 (w - String.length s)).
  lia.
Qed.

Lemma center_widen s w w' :
  w <= w' -> String.length (center s w) <= String.length (center s w').
Proof. intros H. rewrite !length_center. lia. Qed.

Lemma format_center_widen v w w' t :
  w <= w' -> Py.format_center v w = Ok t ->
  exists t', Py.format_center v w' = Ok t' /\ String.length t <= String.length t'.
Proof.
  intros H. destruct v; simpl; intros E; try discriminate E;
    injection E as <-; eexists; (split; [reflexivity | now apply center_widen]).
Qed.

Lemma header_length sp :
  String.length (header sp)
  = 16 + Nat.max 5 (sp_jobid sp) + Nat.max 7 (sp_name sp) + Nat.max 3 (sp_mem sp)
    + Nat.max 4 (sp_ncpus sp) + Nat.max 4 (sp_user sp) + Nat.max 5 (sp_queue sp)
    + Nat.max 5 (sp_state sp) + Nat.max 8 (sp_walltime sp)
    + Nat.max 4 (sp_cpu_efficiency sp) + Nat.max 4 (sp_mem_efficiency sp).
Proof.
  unfold header. rewrite !length_app, !length_center. cbn [String.length ESC NL]. lia.
Qed.

(** Once the widths hold the labels, one more blank per column makes the
    header longer. *)
Lemma header_grows sp :
  fits_labels sp ->
  String.length (header sp) < String.length (header (pad_spacing sp)).
Proof.
  intros H. rewrite !header_length. pose proof (H c_jobid) as Hj.
  destruct sp.
  cbn [pad_spacing sp_jobid sp_name sp_mem sp_ncpus sp_user sp_queue sp_state
       sp_walltime sp_cpu_efficiency sp_mem_efficiency width label String.length] in *.
  rewrite (Nat.max_r 5 sp_jobid0), (Nat.max_r 5 (sp_jobid0 + 1)) by lia.
  repeat match goal with
         | |- context [Nat.max ?a (?w + 1)] =>
             let M := fresh "M" in
             pose proof (Nat.max_le_compat_l w (w + 1) a (Nat.le_add_r w 1)) as M;
             let m := fresh "m" in let E := fresh "E" in
             remember (Nat.max a (w + 1)) as m eqn:E in *; clear E;
             let m' := fresh "m" in let E' := fresh "E" in
             remember (Nat.max a w) as m' eqn:E' in *; clear E'
         end.
  lia.
Qed.

Lemma row_widen sp sp' key v t :
  no_narrower sp sp' -> row sp key v = Ok t ->
  exists t', row sp' key v = Ok t' /\ String.length t <= String.length t'.
Proof.
  intros Hw H. unfold row in *.
  repeat match goal with
         | H : bind ?r _ = Ok _ |- _ =>
             let a := fresh "x" in let E := fresh "E" in
             apply bind_ok in H; destruct H as (a & E & H);
             first [ let t' := fresh "t" in let E' := fresh "E" in let L := fresh "L" in
                     match type of E with
                     | Py.format_center ?v (?proj sp) = Ok _ =>
                         destruct (format_center_widen v (proj sp) (proj sp') _
                                     ltac:(first [ exact (Hw c_name) | exact (Hw c_mem)
                                                 | exact (Hw c_ncpus) | exact (Hw c_queue)
                                                 | exact (Hw c_state) ]) E)
                           as (t' & E' & L);
                         rewrite E'; cbn [bind]
                     end
                   | rewrite E in *; cbn [bind] in * ]
         end.
  injection H as <-. eexists. split; [reflexivity|].
  pose proof (center_widen (PyStr.replace ".pbs02" "" key) _ _ (Hw c_jobid)).
  pose proof (Hw c_user) as Hu. pose proof (Hw c_walltime) as Hwt.
  pose proof (Hw c_cpu_efficiency) as Hce. pose proof (Hw c_mem_efficiency) as Hme.
  cbn [width] in *.
  rewrite !length_app, !length_center in *.
  cbn [String.length ESC NL] in *. lia.
Qed.

Lemma rows_widen sp sp' todo :
  no_narrower sp sp' ->
  forall even acc acc' t,
    String.length acc < String.length acc' ->
    rows sp todo even acc = Ok t ->
    exists t', rows sp' todo even acc' = Ok t' /\ String.length t < String.length t'.
Proof.
  intros Hw. induction todo as [|[key v] rest IH]; intros even acc acc' t Hl H.
  - simpl in *. injection H as <-. now exists acc'.
  - cbn [rows] in *. apply bind_ok in H. destruct H as (job & E & H).
    destruct (row_widen sp sp' key v job Hw E) as (job' & E' & L).
    rewrite E'. cbn [bind]. eapply IH; [|exact H].
    destruct (Nat.even even); rewrite !length_app; lia.
Qed.

(** C7, as the code has it.  Every call of [generate_table] leaves each
    width of the table it was given one larger, so the padding is applied
    once per call, not once.  A second call on the same table therefore
    renders with widths two above the original ones, and when the widths
    hold the header labels (as those [filter_json] returns do) it
    succeeds whenever the first did and returns a strictly longer text. *)
Theorem second_rendering_is_wider :
  forall json_data sp,
    fits_labels sp ->
    let first := generate_table json_data sp in
    let second := generate_table json_data (fst first) in
    fst first = pad_spacing sp /\
    fst second = pad_spacing (pad_spacing sp) /\
    (forall c, width (fst second) c = width sp c + 2) /\
    (forall t, snd first = Ok t ->
               exists t', snd second = Ok t' /\ String.length t < String.length t').
Proof.
  intros json_data sp Hfit. cbv zeta. unfold generate_table. cbn [fst snd].
  split; [reflexivity|]. split; [reflexivity|]. split.
  - intros c. rewrite !width_pad. lia.
  - intros t H. apply bind_ok in H. destruct H as (todo & E & H). rewrite E. cbn [bind].
    eapply rows_widen; [apply pad_no_narrower | | exact H].
    apply header_grows. intros c. rewrite width_pad. specialize (Hfit c). lia.
Qed.

(** C7 on one queued job and the initial widths. *)
Lemma second_rendering_is_wider_witness :
  exists t', snd (generate_table (VDict [("1.pbs02", sim_job)])
                    (pad_spacing (initial_spacing "" ""))) = Ok t' /\
             String.length sample_table < String.length t'.
Proof.
  refine (proj2 (proj2 (proj2 (second_rendering_is_wider
            (VDict [("1.pbs02", sim_job)]) (initial_spacing "" "") _))) sample_table _).
  - intros c. destruct c; vm_compute; repeat constructor.
  - vm_compute. reflexivity.
Defined.

(** C7 fails as stated: rendering the same job twice with the same width
    table gives two different texts. *)
Lemma rendering_twice_differs :
  let widths := initial_spacing "" "" in
  let first := generate_table (VDict [("1.pbs02", sim_job)]) widths in
  let second := generate_table (VDict [("1.pbs02", sim_job)]) (fst first) in
  snd first <> snd second.
Proof. vm_compute. discriminate. Qed.

(** ** The summary *)

(** The argument of [summarize_json] counts only through its length. *)
Lemma summarize_json_reads_module_level json_data a b :
  Py.len a = Py.len b -> summarize_json json_data a = summarize_json json_data b.
Proof. intros H. unfold summarize_json, summarize. now rewrite H. Qed.

(** A job without [job_state] is counted under [Other]. *)
Lemma count_state_missing v counts n :
  Py.getitem v "job_state" = Raise KeyError ->
  counts_find (VStr "Other") counts = Some n ->
  count_state v counts = Ok (counts_put (VStr "Other") (n + 1) counts).
Proof.
  intros Hv Hn. unfold count_state, counts_get, counts_set.
  rewrite Hv. cbn [bind except_KeyError hashable]. rewrite Hn. reflexivity.
Qed.

(** So is a job whose state is not a key of the counts. *)
Lemma count_state_unknown v st counts n :
  Py.getitem v "job_state" = Ok st ->
  hashable st = true ->
  counts_find st counts = None ->
  counts_find (VStr "Other") counts = Some n ->
  count_state v counts = Ok (counts_put (VStr "Other") (n + 1) counts).
Proof.
  intros Hv Hh Hs Hn. unfold count_state, counts_get, counts_set.
  rewrite Hv. cbn [bind]. rewrite Hh, Hs. cbn [bind except_KeyError hashable].
  rewrite Hn. reflexivity.
Qed.

(** C8 does not hold of the code: called with an empty mapping while the
    module-level [json_data] holds one queued job, [summarize_json]
    reports no job in total and one job per queue and per state: the
    counts are those of [json_data], not of the argument. *)
Theorem summary_counts_module_level_mapping :
  summarize_json (VDict [("1.pbs02", sim_job)]) (VDict [])
  = Ok "NumberOfJobs:0  JobsPerQueue:{'batch': 1}  JobStates:{'R': 0, 'Q': 1, 'Other': 0}".
Proof. vm_compute. reflexivity. Qed.


(** * Further properties of the code *)

(** ** Which jobs the filter keeps *)

Lemma guarded_inv user queue state name jobid job f sp f' sp' :
  guarded user queue state name jobid job f sp = Ok (f', sp') ->
  (job_matches user queue state name job = Ok true /\
   update_spacing job sp = Ok sp' /\ f' = dict_set jobid job f) \/
  (job_matches user queue state name job = Ok false /\ sp' = sp /\ f' = f).
Proof.
  unfold guarded. intros H. bind_inv H. destruct x.
  - bind_inv H. injection H as <- <-. left. auto.
  - injection H as <- <-. right. auto.
Qed.

Lemma normalized_of_ok job job' : normalize_name job = Ok job' -> normalized job = job'.
Proof. unfold normalized. now intros ->. Qed.

Lemma scan_selects user queue state name todo :
  forall f sp f' sp',
    NoDup (keys f ++ keys todo)%list ->
    returned (scan user queue state name todo f sp) = Ok (f', sp') ->
    f' = (f ++ filter (selects user queue state name) (retained todo))%list.
Proof.
  induction todo as [|[jobid job] rest IH]; intros f sp f' sp' Hnd H.
  - simpl in H. injection H as <- _. simpl. now rewrite app_nil_r.
  - apply scan_ok_cons in H. destruct H as (job' & f1 & sp1 & N & G & H).
    cbn [retained map filter fst snd]. rewrite (normalized_of_ok _ _ N).
    unfold selects at 1. cbn [snd].
    apply guarded_inv in G. destruct G as [(M & _ & ->)|(M & _ & ->)]; rewrite M.
    + rewrite dict_set_fresh in H.
      2:{ simpl in Hnd. apply NoDup_remove_2 in Hnd. intros Hin. apply Hnd.
          apply in_or_app. now left. }
      apply IH in H.
      * rewrite H, <- app_assoc. reflexivity.
      * unfold keys in *. rewrite map_app, <- app_assoc. exact Hnd.
    + apply IH in H; [exact H|]. simpl in Hnd. now apply NoDup_remove_1 in Hnd.
Qed.

(** X1.  When [filter_json] returns, the mapping it returns holds, in the
    order of the input, exactly the jobs (with their names normalised) on
    which the four tests of lines 141-144 all succeed. *)
Theorem filter_json_selects :
  forall json_data user queue state name jobs filtered sp,
    Py.getitem json_data "Jobs" = Ok (VDict jobs) ->
    NoDup (keys jobs) ->
    returned (filter_json json_data user queue state name) = Ok (filtered, sp) ->
    filtered = filter (selects user queue state name) (retained jobs).
Proof.
  intros json_data user queue state name jobs filtered sp HJ Hnd H.
  erewrite filter_json_returned in H by eassumption. cbn [returned] in H.
  now apply scan_selects in H.
Qed.

(** X1 on two jobs, one of them owned by alice. *)
Lemma filter_json_selects_witness :
  [("1.pbs02", sim_job)] = filter (selects "alice" "" "" "") (retained two_jobs).
Proof.
  refine (filter_json_selects (payload two_jobs) "alice" "" "" "" two_jobs
            [("1.pbs02", sim_job)] alice_widths eq_refl _ _).
  - repeat constructor; simpl; intuition discriminate.
  - vm_compute. reflexivity.
Defined.

(** ** Filtering what was filtered *)

Lemma dict_get_set_same {A : Type} (k : string) (v : A) d :
  dict_get k (dict_set k v d) = Some v.
Proof.
  induction d as [|[k0 v0] d IH]; simpl.
  - now rewrite String.eqb_refl.
  - destruct (String.eqb_spec k0 k) as [->|Hne]; simpl.
    + now rewrite String.eqb_refl.
    + destruct (String.eqb_spec k0 k); [congruence | exact IH].
Qed.

Lemma normalize_name_idempotent job job' :
  normalize_name job = Ok job' -> normalize_name job' = Ok job'.
Proof.
  intros H. destruct (normalize_name_cases _ _ H) as [->|(z & Hz & ->)]; [exact H|].
  destruct job; try discriminate Hz.
  unfold normalize_name. cbn [Py.setitem Py.getitem]. rewrite dict_get_set_same.
  reflexivity.
Qed.

Lemma scan_again user queue state name todo :
  forall f sp f' sp',
    NoDup (keys f ++ keys todo)%list ->
    returned (scan user queue state name todo f sp) = Ok (f', sp') ->
    exists added,
      f' = (f ++ added)%list /\
      (forall x, In x (keys added) -> In x (keys todo)) /\
      NoDup (keys added) /\
      forall g, NoDup (keys g ++ keys added)%list ->
                scan user queue state name added g sp
                = Run added [] (Ok ((g ++ added)%list, sp')).
Proof.
  induction todo as [|[jobid job] rest IH]; intros f sp f' sp' Hnd H.
  - simpl in H. injection H as <- <-. exists []. rewrite app_nil_r.
    repeat split; [auto | constructor |]. intros g _. simpl. now rewrite app_nil_r.
  - apply scan_ok_cons in H. destruct H as (job' & f1 & sp1 & N & G & H).
    pose proof G as G'. apply guarded_inv in G'.
    destruct G' as [(M & U & ->)|(M & -> & ->)].
    + rewrite dict_set_fresh in H, G.
      2,3: simpl in Hnd; apply NoDup_remove_2 in Hnd; intros Hin; apply Hnd;
           apply in_or_app; now left.
      apply IH in H.
      2:{ unfold keys in *. rewrite map_app, <- app_assoc. exact Hnd. }
      destruct H as (added & -> & Hsub & Hnd' & Hg).
      exists ((jobid, job') :: added). rewrite <- app_assoc.
      assert (Hfresh : ~ In jobid (keys added)).
      { intros Hin. apply Hsub in Hin. simpl in Hnd. apply NoDup_remove_2 in Hnd.
        apply Hnd. apply in_or_app. now right. }
      repeat split.
      * intros x [<-|Hx]; [now left | right; now apply Hsub].
      * simpl. now constructor.
      * intros g Hgn. cbn [scan]. rewrite (normalize_name_idempotent _ _ N).
        unfold guarded. rewrite M. cbn [bind]. rewrite U. cbn [bind].
        rewrite dict_set_fresh.
        2:{ simpl in Hgn. apply NoDup_remove_2 in Hgn. intros Hin. apply Hgn.
            apply in_or_app. now left. }
        rewrite Hg.
        2:{ unfold keys in *. rewrite map_app, <- app_assoc. exact Hgn. }
        cbn [store printed returned]. now rewrite <- app_assoc.
    + apply IH in H.
      2:{ simpl in Hnd. now apply NoDup_remove_1 in Hnd. }
      destruct H as (added & -> & Hsub & Hnd' & Hg).
      exists added. repeat split; try assumption.
      intros x Hx. right. now apply Hsub.
Qed.

(** X2.  Filtering is idempotent: a payload whose jobs are the mapping
    [filter_json] returned, filtered again with the same criteria, gives
    the same mapping and the same widths, prints nothing and is left as it
    was. *)
Theorem filter_json_idempotent :
  forall json_data again user queue state name jobs filtered sp,
    Py.getitem json_data "Jobs" = Ok (VDict jobs) ->
    NoDup (keys jobs) ->
    returned (filter_json json_data user queue state name) = Ok (filtered, sp) ->
    Py.getitem again "Jobs" = Ok (VDict filtered) ->
    filter_json again user queue state name = Run again [] (Ok (filtered, sp)).
Proof.
  intros json_data again user queue state name jobs filtered sp HJ Hnd H HA.
  erewrite filter_json_returned in H by eassumption. cbn [returned] in H.
  apply scan_again in H; [|exact Hnd].
  destruct H as (added & E & _ & Hnd' & Hg). simpl in E. subst added.
  erewrite filter_json_returned by eassumption.
  rewrite (Hg [] Hnd'). cbn [store printed returned app].
  f_equal. destruct again; try discriminate. simpl in *.
  destruct (dict_get "Jobs" entries) eqn:G; [|discriminate].
  injection HA as ->. now rewrite dict_set_same.
Qed.

(** X2 on the job of alice. *)
Lemma filter_json_idempotent_witness :
  filter_json (payload [("1.pbs02", sim_job)]) "alice" "" "" ""
  = Run (payload [("1.pbs02", sim_job)]) [] (Ok ([("1.pbs02", sim_job)], alice_widths)).
Proof.
  refine (filter_json_idempotent (payload two_jobs) (payload [("1.pbs02", sim_job)])
            "alice" "" "" "" two_jobs [("1.pbs02", sim_job)] alice_widths
            eq_refl _ _ eq_refl).
  - repeat constructor; simpl; intuition discriminate.
  - vm_compute. reflexivity.
Defined.

(** ** The widths hold the cells of the retained jobs *)

Lemma grow_ge c n sp : n <= width (grow c n sp) c.
Proof. unfold grow. destruct sp, c; simpl; lia. Qed.

Lemma fits_mono sp sp' job : no_narrower sp sp' -> fits sp job -> fits sp' job.
Proof.
  intros Hw (nm & rl & m & q & nc & wt & ce & me & a & b & c & H).
  exists nm, rl, m, q, nc, wt, ce, me, a, b, c.
  pose proof (Hw c_name). pose proof (Hw c_mem). pose proof (Hw c_queue).
  pose proof (Hw c_walltime). pose proof (Hw c_ncpus).
  pose proof (Hw c_cpu_efficiency). pose proof (Hw c_mem_efficiency).
  intuition (try assumption; lia).
Qed.

Lemma update_spacing_fits job sp sp' : update_spacing job sp = Ok sp' -> fits sp' job.
Proof.
  unfold update_spacing. intros H.
  repeat match goal with
         | H : bind ?r _ = Ok _ |- _ =>
             let a := fresh "x" in let E := fresh "E" in
             apply bind_ok in H; destruct H as (a & E & H);
             try (rewrite E in H; cbn [bind] in H)
         end.
  injection H as <-.
  repeat match goal with
         | E : Py.getitem job "Resource_List" = Ok ?a,
           E' : Py.getitem job "Resource_List" = Ok ?b |- _ =>
             assert (b = a) by congruence; subst b; clear E'
         end.
  match goal with
  | E1 : Py.getitem job "Job_Name" = Ok ?nm, E2 : Py.getitem job "Resource_List" = Ok ?rl,
    E3 : Py.getitem ?rl "mem" = Ok ?m, E4 : Py.getitem job "queue" = Ok ?q,
    E5 : Py.getitem ?rl "ncpus" = Ok ?nc, E6 : convert_walltime job ?rl = Ok ?wt,
    E7 : convert_cpu_efficiency job ?rl = Ok ?ce,
    E8 : convert_mem_efficiency job ?rl = Ok ?me,
    L1 : Py.len ?nm = Ok ?a, L2 : Py.len ?m = Ok ?b, L3 : Py.len ?q = Ok ?c |- _ =>
      exists nm, rl, m, q, nc, wt, ce, me, a, b, c
  end.
  repeat split; try assumption;
    repeat first [ apply grow_ge | etransitivity; [ | apply grow_le ] ].
Qed.

Lemma in_dict_set {A : Type} (k : string) (v : A) d x :
  In x (dict_set k v d) -> x = (k, v) \/ In x d.
Proof.
  induction d as [|[k0 v0] d IH]; simpl.
  - intros [<-|[]]. now left.
  - destruct (String.eqb_spec k0 k) as [->|Hne]; simpl.
    + intros [<-|H]; [now left | right; now right].
    + intros [<-|H]; [right; now left|]. destruct (IH H); [now left | right; now right].
Qed.

Lemma scan_fits user queue state name todo :
  forall f sp f' sp',
    Forall (fun kv => fits sp (snd kv)) f ->
    returned (scan user queue state name todo f sp) = Ok (f', sp') ->
    Forall (fun kv => fits sp' (snd kv)) f'.
Proof.
  induction todo as [|[jobid job] rest IH]; intros f sp f' sp' Hf H.
  - simpl in H. now injection H as <- <-.
  - apply scan_ok_cons in H. destruct H as (job' & f1 & sp1 & N & G & H).
    apply (IH f1 sp1); [|exact H].
    pose proof (guarded_le _ _ _ _ _ _ _ _ _ _ G) as Hle.
    apply guarded_inv in G. destruct G as [(_ & U & ->)|(_ & -> & ->)]; [|exact Hf].
    apply Forall_forall. intros x Hx. apply in_dict_set in Hx. destruct Hx as [->|Hx].
    + simpl. eapply update_spacing_fits; eassumption.
    + apply fits_mono with (sp := sp); [exact Hle|].
      rewrite Forall_forall in Hf. now apply Hf.
Qed.

(** X3.  When [filter_json] returns, the widths it returns hold, for
    every retained job, the seven cells it measured: name, requested
    memory, queue, rendered walltime, CPU count and the two
    efficiencies. *)
Theorem retained_cells_fit :
  forall json_data user queue state name jobs filtered sp,
    Py.getitem json_data "Jobs" = Ok (VDict jobs) ->
    returned (filter_json json_data user queue state name) = Ok (filtered, sp) ->
    Forall (fun kv => fits sp (snd kv)) filtered.
Proof.
  intros json_data user queue state name jobs filtered sp HJ H.
  erewrite filter_json_returned in H by eassumption. cbn [returned] in H.
  eapply scan_fits; [|exact H]. constructor.
Qed.

(** X3 on the two sample jobs. *)
Lemma retained_cells_fit_witness :
  Forall (fun kv => fits sample_widths (snd kv)) two_jobs.
Proof.
  refine (retained_cells_fit (payload two_jobs) "" "" "" "" two_jobs two_jobs
            sample_widths eq_refl _).
  vm_compute. reflexivity.
Defined.

Lemma grow_keeps c n sp :
  c <> c_user -> c <> c_state -> c <> c_jobid ->
  sp_user (grow c n sp) = sp_user sp /\ sp_state (grow c n sp) = sp_state sp /\
  sp_jobid (grow c n sp) = sp_jobid sp.
Proof. destruct sp, c; simpl; intuition congruence. Qed.

Lemma update_spacing_keeps job sp sp' :
  update_spacing job sp = Ok sp' ->
  sp_user sp' = sp_user sp /\ sp_state sp' = sp_state sp /\ sp_jobid sp' = sp_jobid sp.
Proof.
  unfold update_spacing. intros H. repeat bind_inv H. injection H as <-.
  repeat match goal with
         | |- context [grow ?c ?n ?s] =>
             let K := fresh "K" in
             assert (K := grow_keeps c n s ltac:(discriminate) ltac:(discriminate)
                            ltac:(discriminate));
             destruct K as (-> & -> & ->)
         end.
  auto.
Qed.

Lemma scan_keeps user queue state name todo :
  forall f sp f' sp',
    returned (scan user queue state name todo f sp) = Ok (f', sp') ->
    sp_user sp' = sp_user sp /\ sp_state sp' = sp_state sp /\ sp_jobid sp' = sp_jobid sp.
Proof.
  induction todo as [|[jobid job] rest IH]; intros f sp f' sp' H.
  - simpl in H. injection H as _ <-. auto.
  - apply scan_ok_cons in H. destruct H as (job' & f1 & sp1 & N & G & H).
    apply IH in H. destruct H as (-> & -> & ->).
    apply guarded_inv in G. destruct G as [(_ & U & _)|(_ & -> & _)]; [|auto].
    now apply update_spacing_keeps in U.
Qed.

(** X4.  The scan never sizes the [user], [state] and [jobid] columns
    from the jobs: whatever was retained, their widths come back as they
    were seeded, [max(7, len(user))], 5 and 8. *)
Theorem fixed_columns_ignore_data :
  forall json_data user queue state name jobs filtered sp,
    Py.getitem json_data "Jobs" = Ok (VDict jobs) ->
    returned (filter_json json_data user queue state name) = Ok (filtered, sp) ->
    width sp c_user = Nat.max 7 (String.length user) /\
    width sp c_state = 5 /\ width sp c_jobid = 8.
Proof.
  intros json_data user queue state name jobs filtered sp HJ H.
  erewrite filter_json_returned in H by eassumption. cbn [returned] in H.
  apply scan_keeps in H. cbn [width]. destruct H as (-> & -> & ->). now repeat split.
Qed.

(** X4 on the jobs of alice. *)
Lemma fixed_columns_ignore_data_witness :
  width alice_widths c_user = Nat.max 7 5 /\
  width alice_widths c_state = 5 /\ width alice_widths c_jobid = 8.
Proof.
  refine (fixed_columns_ignore_data (payload two_jobs) "alice" "" "" "" two_jobs
            [("1.pbs02", sim_job)] alice_widths eq_refl _).
  vm_compute. reflexivity.
Defined.

(** ** Rendering what the filter returned *)

Lemma split_cons sep s : exists h r, PyStr.split sep s = h :: r.
Proof.
  induction s as [|c s (h & r & IH)]; simpl; [eauto|].
  destruct (Ascii.eqb c sep); [eauto|]. rewrite IH. eauto.
Qed.

Lemma convert_mem_efficiency_text used_mem total_mem me :
  convert_mem_efficiency used_mem total_mem = Ok me ->
  exists s, Py.getitem total_mem "mem" = Ok (VStr s).
Proof.
  unfold convert_mem_efficiency. intros H. bind_inv H. bind_inv H. bind_inv H.
  destruct x0; try discriminate. eauto.
Qed.

Lemma convert_cpu_efficiency_number used_cpus total_cpus ce :
  convert_cpu_efficiency used_cpus total_cpus = Ok ce ->
  exists nc z, Py.getitem total_cpus "ncpus" = Ok nc /\ Py.as_int nc = Some z.
Proof.
  unfold convert_cpu_efficiency. intros H. bind_inv H. bind_inv H. bind_inv H.
  unfold cpu_ratio in E1. destruct (Py.as_int x); [|discriminate].
  destruct (Py.as_int x0) eqn:A; [|discriminate]. eauto.
Qed.

Lemma format_center_number nc z w :
  Py.as_int nc = Some z -> exists t, Py.format_center nc w = Ok t.
Proof. destruct nc; simpl; intros H; try discriminate; eauto. Qed.

Lemma row_ok sp0 sp key v :
  fits sp0 v -> text_fields v = true -> exists t, row sp key v = Ok t.
Proof.
  intros (nm & rl & m & q & nc & wt & ce & me & a & b & c & F) T.
  destruct F as (E1 & _ & _ & E2 & E3 & _ & _ & E4 & _ & _ & E5 & _ & E6 & _ & E7 & _ & E8 & _).
  unfold text_fields in T.
  repeat (apply andb_prop in T; destruct T as [T ?]).
  repeat match goal with
         | T : is_text _ = true |- _ => apply is_text_inv in T; destruct T as [? T]
         end.
  destruct (convert_mem_efficiency_text _ _ _ E8) as (ms & Em).
  destruct (convert_cpu_efficiency_number _ _ _ E7) as (nc' & z & En & Ez).
  assert (nc' = nc) by congruence. subst nc'.
  destruct (format_center_number nc z (sp_ncpus sp) Ez) as (tn & Et).
  unfold row.
  repeat match goal with
         | E : _ = Ok _ |- _ => rewrite E; cbn [bind Py.format_center Py.split]
         | |- context [Py.index (PyStr.split ?c ?s) 0] =>
             destruct (split_cons c s) as (? & ? & ->); cbn [Py.index nth_error bind]
         end.
  eauto.
Qed.

Lemma rows_ok sp todo :
  Forall (fun kv => exists t, row sp (fst kv) (snd kv) = Ok t) todo ->
  forall even acc, exists t, rows sp todo even acc = Ok t.
Proof.
  induction 1 as [|[key v] rest (t & Hr) _ IH]; intros even acc; cbn [rows].
  - eauto.
  - cbn [fst snd] in Hr. rewrite Hr. cbn [bind]. apply IH.
Qed.

(** X5.  Rendering cannot fail after filtering, unless a retained job has
    a list or an object where a text is expected: when [filter_json]
    returns and name, owner, queue and state of the retained jobs are
    texts, [generate_table] on its result returns a table. *)
Theorem filtered_jobs_render :
  forall json_data user queue state name jobs filtered sp,
    Py.getitem json_data "Jobs" = Ok (VDict jobs) ->
    returned (filter_json json_data user queue state name) = Ok (filtered, sp) ->
    Forall (fun kv => text_fields (snd kv) = true) filtered ->
    exists data_table, snd (generate_table (VDict filtered) sp) = Ok data_table.
Proof.
  intros json_data user queue state name jobs filtered sp HJ H HT.
  erewrite filter_json_returned in H by eassumption. cbn [returned] in H.
  assert (F : Forall (fun kv => fits sp (snd kv)) filtered).
  { eapply scan_fits; [|exact H]. constructor. }
  unfold generate_table. cbn [snd Py.items bind]. apply rows_ok.
  rewrite Forall_forall in *. intros kv Hin.
  eapply row_ok; [apply F | apply HT]; exact Hin.
Qed.

(** X5 on the two sample jobs. *)
Lemma filtered_jobs_render_witness :
  exists data_table, snd (generate_table (VDict two_jobs) sample_widths) = Ok data_table.
Proof.
  refine (filtered_jobs_render (payload two_jobs) "" "" "" "" two_jobs two_jobs
            sample_widths eq_refl _ _).
  - vm_compute. reflexivity.
  - repeat constructor.
Defined.

(** ** The layout of the table *)

Lemma append_assoc (a b c : string) : (a ++ b) ++ c = a ++ b ++ c.
Proof. induction a as [|x a IH]; simpl; [reflexivity | now rewrite IH]. Qed.

Lemma rows_layout sp todo :
  forall even acc t,
    rows sp todo even acc = Ok t <->
    exists texts, Forall2 (rendered sp) todo texts /\ t = acc ++ colored even texts.
Proof.
  induction todo as [|[key v] rest IH]; intros even acc t; cbn [rows].
  - split.
    + intros [= <-]. exists []. split; [constructor|]. simpl. now rewrite append_empty_r.
    + intros (texts & F & ->). inversion F; subst. simpl. now rewrite append_empty_r.
  - split.
    + intros H. bind_inv H. apply IH in H. destruct H as (texts & F & ->).
      exists (x :: texts). split; [constructor; assumption|].
      cbn [colored]. destruct (Nat.even even); now rewrite !append_assoc.
    + intros (texts & F & ->). inversion F as [|? r ? rs Hr Hrs]; subst.
      unfold rendered in Hr. cbn [fst snd] in Hr. rewrite Hr. cbn [bind].
      apply IH. exists rs. split; [exact Hrs|].
      cbn [colored]. destruct (Nat.even even); now rewrite !append_assoc.
Qed.

(** X6.  [generate_table] returns a table exactly when its first
    argument is a mapping every entry of which renders as a row, and the
    table is then the header followed by the rows in the order of the
    mapping, one per entry, each behind its colour code, bright for the
    rows of even rank; all of it with the widths incremented by one. *)
Theorem table_layout :
  forall json_data sp data_table,
    snd (generate_table json_data sp) = Ok data_table <->
    exists todo texts,
      Py.items json_data = Ok todo /\
      Forall2 (rendered (pad_spacing sp)) todo texts /\
      data_table = header (pad_spacing sp) ++ colored 0 texts.
Proof.
  intros json_data sp data_table. unfold generate_table. cbn [snd]. split.
  - intros H. bind_inv H. apply rows_layout in H. destruct H as (texts & F & ->).
    now exists x, texts.
  - intros (todo & texts & -> & F & ->). cbn [bind]. apply rows_layout. now exists texts.
Qed.

(** X6 on the table of alice. *)
Lemma table_layout_witness :
  exists todo texts,
    Py.items (VDict [("1.pbs02", sim_job)]) = Ok todo /\
    Forall2 (rendered (pad_spacing alice_widths)) todo texts /\
    alice_table = header (pad_spacing alice_widths) ++ colored 0 texts.
Proof.
  refine (proj1 (table_layout (VDict [("1.pbs02", sim_job)]) alice_widths alice_table) _).
  vm_compute. reflexivity.
Defined.

Lemma padded_header_length sp :
  fits_labels sp ->
  String.length (header (pad_spacing sp))
  = 26 + sp_jobid sp + sp_name sp + sp_mem sp + sp_ncpus sp + sp_user sp + sp_queue sp
    + sp_state sp + sp_walltime sp + sp_cpu_efficiency sp + sp_mem_efficiency sp.
Proof.
  intros H. rewrite header_length.
  pose proof (H c_jobid). pose proof (H c_name). pose proof (H c_mem).
  pose proof (H c_ncpus). pose proof (H c_user). pose proof (H c_queue).
  pose proof (H c_state). pose proof (H c_walltime). pose proof (H c_cpu_efficiency).
  pose proof (H c_mem_efficiency).
  destruct sp.
  cbn [pad_spacing sp_jobid sp_name sp_mem sp_ncpus sp_user sp_queue sp_state
       sp_walltime sp_cpu_efficiency sp_mem_efficiency width label String.length] in *.
  repeat match goal with
         | |- context [Nat.max ?a ?b] => rewrite (Nat.max_r a b) by lia
         end.
  lia.
Qed.

Lemma length_format_center_number nc w t :
  Py.format_center nc w = Ok t ->
  String.length (Py.str nc) <= w ->
  (exists z, Py.as_int nc = Some z) ->
  String.length t = w.
Proof.
  destruct nc; cbn [Py.format_center Py.str Py.repr Py.as_int];
    intros H L (z0 & A); try discriminate; injection H as <-;
    rewrite length_center.
  - destruct b; cbn [String.length] in *; lia.
  - lia.
Qed.

Lemma row_aligned sp key v text :
  fits sp v -> text_fields v = true -> fixed_cells_fit sp (key, v) ->
  row (pad_spacing sp) key v = Ok text ->
  String.length text
  = 16 + sp_jobid sp + sp_name sp + sp_mem sp + sp_ncpus sp + sp_user sp + sp_queue sp
    + sp_state sp + sp_walltime sp + sp_cpu_efficiency sp + sp_mem_efficiency sp.
Proof.
  intros (nm & rl & m & q & nc & wt & ce & me & a & b & c & F) T (X1 & X2 & X3) H.
  destruct F as (E1 & L1 & B1 & E2 & E3 & L3 & B3 & E4 & L4 & B4 & E5 & B5 & E6 & B6
                 & E7 & B7 & E8 & B8).
  unfold text_fields in T.
  repeat (apply andb_prop in T; destruct T as [T ?]).
  repeat match goal with
         | T : is_text _ = true |- _ => apply is_text_inv in T; destruct T as [? T]
         end.
  destruct (convert_mem_efficiency_text _ _ _ E8) as (ms & Em).
  destruct (convert_cpu_efficiency_number _ _ _ E7) as (nc' & z & En & Ez).
  assert (nc' = nc) by congruence. subst nc'.
  unfold login_of, state_of in *. cbn [fst snd] in *.
  repeat match goal with
         | E : Py.getitem v _ = Ok (VStr _), E' : Py.getitem v _ = Ok ?y |- _ =>
             rewrite E in E'; injection E' as <-
         | E : Py.getitem v _ = Ok (VStr _) |- _ =>
             progress (rewrite E in *)
         end.
  rewrite Em in E3. injection E3 as <-.
  unfold row in H. rewrite E2 in H. cbn [bind] in H.
  rewrite E5, E7, E8 in H. cbn [bind] in H.
  repeat match goal with
         | E : Py.getitem v _ = Ok _ |- _ => rewrite E in H; cbn [bind] in H
         end.
  rewrite Em, E6 in H. cbn [bind Py.format_center Py.split] in H.
  match type of H with
  | context [Py.index (PyStr.split ?ch ?s) 0] =>
      destruct (split_cons ch s) as (h & r & Hs); rewrite Hs in H, X2
  end.
  cbn [Py.index nth_error bind hd] in H, X2.
  bind_inv H. injection H as <-.
  match type of E with
  | Py.format_center _ _ = Ok ?t =>
      assert (Ln : String.length t = sp_ncpus (pad_spacing sp))
  end.
  { apply (length_format_center_number nc _ _ E); [|now exists z].
    pose proof (width_pad sp c_ncpus) as W. cbn [width] in W, B6. lia. }
  simpl in L1, L3, L4. injection L1 as <-. injection L3 as <-. injection L4 as <-.
  destruct sp.
  cbn [pad_spacing sp_jobid sp_name sp_mem sp_ncpus sp_user sp_queue sp_state
       sp_walltime sp_cpu_efficiency sp_mem_efficiency width] in *.
  rewrite !length_app, !length_center, Ln. cbn [String.length ESC NL].
  repeat match goal with
         | |- context [Nat.max ?a ?b] => rewrite (Nat.max_r a b) by lia
         end.
  lia.
Qed.

(** X7.  The table of what the filter returned is aligned as far as the
    filter sized it: when name, owner, queue and state of the retained
    jobs are texts and their shortened job id, login and state are no
    longer than the widths of the three columns the scan never sizes (8,
    [max(7, len(user))] and 5, plus one), the table has one row per
    retained job and every row, with its ten characters of colour code,
    is exactly as long as the header. *)
Theorem table_rows_are_aligned :
  forall json_data user queue state name jobs filtered sp data_table,
    Py.getitem json_data "Jobs" = Ok (VDict jobs) ->
    returned (filter_json json_data user queue state name) = Ok (filtered, sp) ->
    Forall (fun kv => text_fields (snd kv) = true) filtered ->
    Forall (fixed_cells_fit sp) filtered ->
    snd (generate_table (VDict filtered) sp) = Ok data_table ->
    exists texts,
      data_table = header (pad_spacing sp) ++ colored 0 texts /\
      List.length texts = List.length filtered /\
      Forall (fun text => 10 + String.length text
                          = String.length (header (pad_spacing sp))) texts.
Proof.
  intros json_data user queue state name jobs filtered sp data_table HJ H HT HX HG.
  erewrite filter_json_returned in H by eassumption. cbn [returned] in H.
  assert (F : Forall (fun kv => fits sp (snd kv)) filtered).
  { eapply scan_fits; [|exact H]. constructor. }
  assert (Hl : fits_labels sp).
  { intros c. etransitivity; [apply label_fits_initial | eapply scan_le; eassumption]. }
  unfold generate_table in HG. cbn [snd Py.items bind] in HG.
  apply rows_layout in HG. destruct HG as (texts & F2 & ->).
  exists texts. split; [reflexivity|]. split.
  - symmetry. eapply Forall2_length; eassumption.
  - rewrite (padded_header_length sp Hl).
    clear H. induction F2 as [|[key v] text l l' Hr _ IH]; [constructor|].
    inversion F; inversion HT; inversion HX; subst.
    constructor; [|now apply IH].
    rewrite (row_aligned sp key v text); try assumption. lia.
Qed.

(** X7 on the table of alice. *)
Lemma table_rows_are_aligned_witness :
  exists texts,
    alice_table = header (pad_spacing alice_widths) ++ colored 0 texts /\
    List.length texts = 1 /\
    Forall (fun text => 10 + String.length text
                        = String.length (header (pad_spacing alice_widths))) texts.
Proof.
  refine (table_rows_are_aligned (payload two_jobs) "alice" "" "" "" two_jobs
            [("1.pbs02", sim_job)] alice_widths alice_table eq_refl _ _ _ _).
  - vm_compute. reflexivity.
  - repeat constructor.
  - repeat constructor; vm_compute; repeat constructor.
  - vm_compute. reflexivity.
Defined.

(** ** Exceptions the filter does not catch *)

(** X8.  Let the jobs before a given job scan without error.  An
    exception raised on line 138, whatever its kind, or an exception
    other than [TypeError] raised by the guarded block, leaves
    [filter_json] as it was raised, and nothing is printed. *)
Theorem other_exceptions_propagate :
  forall json_data user queue state name pre jobid job suf f1 sp1 e,
    Py.getitem json_data "Jobs" = Ok (VDict (pre ++ (jobid, job) :: suf)) ->
    returned (scan user queue state name pre [] (initial_spacing user queue))
    = Ok (f1, sp1) ->
    normalize_name job = Raise e \/
    (e <> TypeError /\
     exists job', normalize_name job = Ok job' /\
                  guarded user queue state name jobid job' f1 sp1 = Raise e) ->
    returned (filter_json json_data user queue state name) = Raise e /\
    printed (filter_json json_data user queue state name) = [].
Proof.
  intros json_data user queue state name pre jobid job suf f1 sp1 e HJ Hpre Hcase.
  erewrite filter_json_returned by eassumption. cbn [returned printed].
  destruct (scan_app_ok user queue state name pre ((jobid, job) :: suf) _ _ _ _ Hpre)
    as [-> ->].
  cbn [scan]. destruct Hcase as [N|(Hne & job' & N & G)]; rewrite N.
  - now split.
  - rewrite G. destruct e; now split.
Qed.

(** X8 on a job that requests no CPU, after a sound one. *)
Lemma other_exceptions_propagate_witness :
  returned (filter_json (payload [("1.pbs02", sim_job); ("2.pbs02", zero_cpu_job)])
              "" "" "" "") = Raise ZeroDivisionError /\
  printed (filter_json (payload [("1.pbs02", sim_job); ("2.pbs02", zero_cpu_job)])
              "" "" "" "") = [].
Proof.
  refine (other_exceptions_propagate
            (payload [("1.pbs02", sim_job); ("2.pbs02", zero_cpu_job)])
            "" "" "" "" [("1.pbs02", sim_job)] "2.pbs02" zero_cpu_job []
            [("1.pbs02", sim_job)] sample_widths ZeroDivisionError eq_refl _ _).
  - vm_compute. reflexivity.
  - right. split; [discriminate|]. exists zero_cpu_job. split; vm_compute; reflexivity.
Defined.

(** ** Jobs of other users *)

Lemma scan_others user queue state name todo :
  forall f sp,
    Forall (owned_by_others user) todo ->
    returned (scan user queue state name todo f sp) = Ok (f, sp) /\
    printed (scan user queue state name todo f sp) = [].
Proof.
  induction todo as [|[jobid job] rest IH]; intros f sp Hall.
  - now split.
  - inversion Hall as [|? ? (nm & owner & Hn & Ho & Hc) Hrest]; subst. simpl in *.
    cbn [scan].
    assert (N : exists job', normalize_name job = Ok job' /\
                             Py.getitem job' "Job_Owner" = Ok (VStr owner)).
    { unfold normalize_name. rewrite Hn. cbn [bind].
      destruct nm; try (eexists; split; [reflexivity | exact Ho]).
      eexists. split; [reflexivity|].
      rewrite getitem_setitem_other by discriminate. exact Ho. }
    destruct N as (job' & -> & Ho').
    unfold guarded, job_matches. rewrite Ho'. cbn [bind Py.contains]. rewrite Hc.
    cbn [negb bind store printed returned]. now apply IH.
Qed.

(** X9.  The tests stop at the first that fails: when every job has a
    name and an owner text that does not contain the user criterion, the
    other fields are never read, so [filter_json] returns the empty
    mapping and the seed widths and prints nothing, whatever else the
    jobs hold or lack. *)
Theorem jobs_of_others_are_skipped :
  forall json_data user queue state name jobs,
    Py.getitem json_data "Jobs" = Ok (VDict jobs) ->
    Forall (owned_by_others user) jobs ->
    returned (filter_json json_data user queue state name)
    = Ok ([], initial_spacing user queue) /\
    printed (filter_json json_data user queue state name) = [].
Proof.
  intros json_data user queue state name jobs HJ Hall.
  erewrite filter_json_returned by eassumption. cbn [returned printed].
  now apply scan_others.
Qed.

(** X9 on a job of alice without queue, asked for carol. *)
Lemma jobs_of_others_are_skipped_witness :
  returned (filter_json (payload [("1.pbs02", no_queue_job)]) "carol" "" "" "")
  = Ok ([], initial_spacing "carol" "") /\
  printed (filter_json (payload [("1.pbs02", no_queue_job)]) "carol" "" "" "") = [].
Proof.
  refine (jobs_of_others_are_skipped (payload [("1.pbs02", no_queue_job)])
            "carol" "" "" "" [("1.pbs02", no_queue_job)] eq_refl _).
  constructor; [|constructor].
  exists (VStr "sim"), "alice@node1". repeat split.
Defined.

(** ** What the summary counts *)

Lemma counts3_eq (r q o r' q' o' : Z) :
  r = r' -> q = q' -> o = o' ->
  [(VStr "R", r); (VStr "Q", q); (VStr "Other", o)]
  = [(VStr "R", r'); (VStr "Q", q'); (VStr "Other", o')].
Proof. now intros -> -> ->. Qed.

Lemma count_state_step v r q o sc' :
  count_state v [(VStr "R", r); (VStr "Q", q); (VStr "Other", o)] = Ok sc' ->
  sc' = [(VStr "R", r + b2z (in_state "R" ("", v)));
         (VStr "Q", q + b2z (in_state "Q" ("", v)));
         (VStr "Other",
          o + 1 - b2z (in_state "R" ("", v)) - b2z (in_state "Q" ("", v)))]%Z.
Proof.
  unfold count_state, in_state. cbn [snd].
  destruct (Py.getitem v "job_state") as [st|e].
  - cbn [bind]. unfold counts_get, counts_set.
    destruct st as [ | b | z | s | l | d ];
      try (cbn; discriminate);
      try (cbn; intros [= <-]; apply counts3_eq; cbn [b2z]; lia).
    cbn [hashable bind counts_find key_eqb].
    destruct (String.eqb_spec "R" s) as [<-|HR].
    { cbn. intros [= <-]. apply counts3_eq; cbn [b2z]; lia. }
    destruct (String.eqb_spec "Q" s) as [<-|HQ].
    { cbn. intros [= <-]. apply counts3_eq; cbn [b2z]; lia. }
    destruct (String.eqb_spec "Other" s) as [<-|HO].
    { cbn. intros [= <-]. apply counts3_eq; cbn [b2z]; lia. }
    cbn. intros [= <-]. apply counts3_eq; cbn [b2z]; lia.
  - destruct e; cbn; try discriminate. intros [= <-]. apply counts3_eq; cbn [b2z]; lia.
Qed.

Lemma total_put_found k n m d :
  counts_find k d = Some n -> total (counts_put k m d) = (total d - n + m)%Z.
Proof.
  induction d as [|[k0 n0] d IH]; simpl; [discriminate|].
  destruct (key_eqb k0 k).
  - intros [= ->]. simpl. lia.
  - intros H. simpl. rewrite (IH H). lia.
Qed.

Lemma total_put_fresh k m d :
  counts_find k d = None -> total (counts_put k m d) = (total d + m)%Z.
Proof.
  induction d as [|[k0 n0] d IH]; simpl; [intros _; lia|].
  destruct (key_eqb k0 k); [discriminate|].
  intros H. simpl. rewrite (IH H). lia.
Qed.

Lemma count_queue_total v qc qc' :
  count_queue v qc = Ok qc' -> total qc' = (total qc + 1)%Z.
Proof.
  unfold count_queue, counts_get, counts_set.
  destruct (Py.getitem v "queue") as [q|e].
  - cbn [bind]. destruct (hashable q); [|discriminate].
    destruct (counts_find q qc) as [n|] eqn:F; cbn [bind except_KeyError].
    + intros [= <-]. rewrite (total_put_found _ _ _ _ F). lia.
    + intros [= <-]. now rewrite (total_put_fresh _ _ _ F).
  - destruct e; cbn; discriminate.
Qed.

Lemma how_many_cons p key v rest :
  how_many p ((key, v) :: rest) = (b2z (p (key, v)) + how_many p rest)%Z.
Proof.
  unfold how_many. cbn [filter].
  destruct (p (key, v)); cbn [b2z List.length]; lia.
Qed.

Lemma count_jobs_spec todo :
  forall qc r q o qc' sc',
    count_jobs todo qc [(VStr "R", r); (VStr "Q", q); (VStr "Other", o)] = Ok (qc', sc') ->
    total qc' = (total qc + Z.of_nat (List.length todo))%Z /\
    sc' = [(VStr "R", r + how_many (in_state "R") todo);
           (VStr "Q", q + how_many (in_state "Q") todo);
           (VStr "Other",
            o + Z.of_nat (List.length todo)
            - how_many (in_state "R") todo - how_many (in_state "Q") todo)]%Z.
Proof.
  induction todo as [|[key v] rest IH]; intros qc r q o qc' sc' H.
  - simpl in H. injection H as <- <-. unfold how_many. simpl.
    split; [lia|]. apply counts3_eq; lia.
  - cbn [count_jobs] in H. bind_inv H. bind_inv H.
    apply count_state_step in E0. subst x0.
    apply count_queue_total in E.
    apply IH in H. destruct H as (Ht & ->).
    rewrite !how_many_cons.
    change (in_state "R" (key, v)) with (in_state "R" ("", v)).
    change (in_state "Q" (key, v)) with (in_state "Q" ("", v)).
    cbn [List.length]. split; [lia|]. apply counts3_eq; lia.
Qed.

(** X10.  When the summary is computed, its state counts have the three
    keys [R], [Q] and [Other] and no other: [R] and [Q] count the jobs of
    the iterated mapping whose state is exactly that text, [Other] counts
    all the rest (a state with a trailing blank, any other state, no
    state); and the per-queue counts add up to the number of jobs. *)
Theorem summary_state_counts :
  forall json_data filtered_json todo s,
    Py.items json_data = Ok todo ->
    summarize json_data filtered_json = Ok s ->
    job_state_counts s
    = [(VStr "R", how_many (in_state "R") todo);
       (VStr "Q", how_many (in_state "Q") todo);
       (VStr "Other",
        Z.of_nat (List.length todo)
        - how_many (in_state "R") todo - how_many (in_state "Q") todo)]%Z /\
    total (queue_job_counts s) = Z.of_nat (List.length todo).
Proof.
  intros json_data filtered_json todo s HI H. unfold summarize in H.
  bind_inv H. rewrite HI in H. cbn [bind] in H. bind_inv H. injection H as <-.
  cbn [job_state_counts queue_job_counts]. destruct x0 as [qc sc].
  apply count_jobs_spec in E0. destruct E0 as (Ht & ->). cbn [fst snd].
  split; [reflexivity|]. simpl in Ht. lia.
Qed.

(** X10 on the running job and a job whose state ends with a blank: the
    second is counted under [Other]. *)
Lemma summary_state_counts_witness :
  (exists s, summarize (VDict [("2.pbs02", running_job); ("3.pbs02", blank_state_job)])
               (VDict []) = Ok s /\
             job_state_counts s = [(VStr "R", 1); (VStr "Q", 0); (VStr "Other", 1)]%Z).
Proof.
  destruct (summarize (VDict [("2.pbs02", running_job); ("3.pbs02", blank_state_job)])
              (VDict [])) as [s|e] eqn:S; [|vm_compute in S; discriminate S].
  exists s. split; [reflexivity|].
  exact (proj1 (summary_state_counts
                  (VDict [("2.pbs02", running_job); ("3.pbs02", blank_state_job)])
                  (VDict []) [("2.pbs02", running_job); ("3.pbs02", blank_state_job)] s
                  eq_refl S)).
Defined.

Lemma key_eqb_text_l a x : key_eqb (VStr a) x = true -> x = VStr a.
Proof.
  destruct x; simpl; try discriminate. intros H. apply String.eqb_eq in H. now subst.
Qed.

Lemma key_eqb_text_r a x : key_eqb x (VStr a) = true -> x = VStr a.
Proof.
  destruct x; simpl; try discriminate; try (destruct b; discriminate).
  intros H. apply String.eqb_eq in H. now subst.
Qed.

Lemma find_put_same a n d : counts_find (VStr a) (counts_put (VStr a) n d) = Some n.
Proof.
  induction d as [|[k0 n0] d IH]; simpl.
  - now rewrite String.eqb_refl.
  - destruct (key_eqb k0 (VStr a)) eqn:E; simpl; rewrite E; [reflexivity | exact IH].
Qed.

Lemma find_put_other a k n d :
  key_eqb k (VStr a) = false ->
  counts_find (VStr a) (counts_put k n d) = counts_find (VStr a) d.
Proof.
  intros Hk. induction d as [|[k0 n0] d IH]; simpl.
  - now rewrite Hk.
  - destruct (key_eqb k0 k) eqn:E; simpl.
    + destruct (key_eqb k0 (VStr a)) eqn:E'; [|reflexivity].
      apply key_eqb_text_r in E'. subst k0. apply key_eqb_text_l in E. subst k.
      simpl in Hk. now rewrite String.eqb_refl in Hk.
    + destruct (key_eqb k0 (VStr a)); [reflexivity | exact IH].
Qed.

Lemma in_queue_key v q a :
  Py.getitem v "queue" = Ok q -> key_eqb q (VStr a) = in_queue a ("", v).
Proof.
  intros H. unfold in_queue. cbn [snd]. rewrite H.
  destruct q; simpl; try reflexivity; try (now destruct b).
  apply String.eqb_sym.
Qed.

Lemma count_queue_find v qc qc' a :
  count_queue v qc = Ok qc' ->
  counts_find (VStr a) qc'
  = if in_queue a ("", v) then Some (known (counts_find (VStr a) qc) + 1)%Z
    else counts_find (VStr a) qc.
Proof.
  unfold count_queue, counts_get, counts_set.
  destruct (Py.getitem v "queue") as [q|e] eqn:G.
  - cbn [bind]. destruct (hashable q); [|discriminate].
    rewrite <- (in_queue_key v q a G).
    destruct (key_eqb q (VStr a)) eqn:K.
    + apply key_eqb_text_r in K. subst q.
      destruct (counts_find (VStr a) qc) as [n|]; cbn [bind except_KeyError known];
        intros [= <-]; now rewrite find_put_same.
    + destruct (counts_find q qc) as [n|]; cbn [bind except_KeyError];
        intros [= <-]; now rewrite find_put_other.
  - destruct e; cbn; discriminate.
Qed.

Lemma count_jobs_queue a todo :
  forall qc sc qc' sc',
    count_jobs todo qc sc = Ok (qc', sc') ->
    counts_find (VStr a) qc'
    = if (how_many (in_queue a) todo =? 0)%Z then counts_find (VStr a) qc
      else Some (known (counts_find (VStr a) qc) + how_many (in_queue a) todo)%Z.
Proof.
  induction todo as [|[key v] rest IH]; intros qc sc qc' sc' H.
  - simpl in H. now injection H as <- _.
  - cbn [count_jobs] in H. bind_inv H. bind_inv H.
    apply IH in H. rewrite H. rewrite (count_queue_find _ _ _ a E).
    rewrite how_many_cons.
    change (in_queue a (key, v)) with (in_queue a ("", v)).
    assert (Hn : (0 <= how_many (in_queue a) rest)%Z) by (unfold how_many; lia).
    destruct (in_queue a ("", v)); cbn [b2z known].
    + destruct (Z.eqb_spec (1 + how_many (in_queue a) rest) 0); [lia|].
      destruct (Z.eqb_spec (how_many (in_queue a) rest) 0) as [->|]; f_equal; lia.
    + reflexivity.
Qed.

(** X11.  In the summary, the count stored under a queue name is the
    number of jobs of the iterated mapping whose queue is that text, and
    a name no job has is not a key. *)
Theorem summary_queue_counts :
  forall json_data filtered_json todo s a,
    Py.items json_data = Ok todo ->
    summarize json_data filtered_json = Ok s ->
    counts_find (VStr a) (queue_job_counts s)
    = if (how_many (in_queue a) todo =? 0)%Z then None
      else Some (how_many (in_queue a) todo).
Proof.
  intros json_data filtered_json todo s a HI H. unfold summarize in H.
  bind_inv H. rewrite HI in H. cbn [bind] in H. bind_inv H. injection H as <-.
  cbn [queue_job_counts]. destruct x0 as [qc sc]. cbn [fst].
  now rewrite (count_jobs_queue a _ _ _ _ _ E0).
Qed.

(** X11 on the two sample jobs: one job in [gpu], none in [fast]. *)
Lemma summary_queue_counts_witness :
  counts_find (VStr "gpu") (queue_job_counts two_jobs_summary) = Some 1%Z /\
  counts_find (VStr "fast") (queue_job_counts two_jobs_summary) = None.
Proof.
  split.
  - exact (summary_queue_counts (VDict two_jobs) (VDict two_jobs) two_jobs
             two_jobs_summary "gpu" eq_refl eq_refl).
  - exact (summary_queue_counts (VDict two_jobs) (VDict two_jobs) two_jobs
             two_jobs_summary "fast" eq_refl eq_refl).
Defined.

(** ** The script *)

Lemma scan_ok_prints_nothing user queue state name todo :
  forall f sp r,
    returned (scan user queue state name todo f sp) = Ok r ->
    printed (scan user queue state name todo f sp) = [].
Proof.
  induction todo as [|[jobid job] rest IH]; intros f sp r H; [reflexivity|].
  pose proof H as H'. apply scan_ok_cons in H'.
  destruct H' as (job' & f' & sp' & N & G & H').
  cbn [scan]. rewrite N, G. cbn [printed]. eapply IH; eassumption.
Qed.

Lemma filter_json_ok_prints_nothing json_data user queue state name r :
  returned (filter_json json_data user queue state name) = Ok r ->
  printed (filter_json json_data user queue state name) = [].
Proof.
  unfold filter_json.
  destruct (jobs <- Py.getitem json_data "Jobs";; Py.items jobs) as [jobs|e];
    cbn [returned printed]; [|discriminate].
  apply scan_ok_prints_nothing.
Qed.

(** X12.  In the script the mapping that is counted is the one that was
    filtered (line 214 rebinds [json_data]), so whenever the summary text
    is produced, the number of jobs, the sum of the per-queue counts and
    the sum of the three state counts are all the number of retained
    jobs. *)
Theorem script_totals_agree :
  forall qstat user queue state name text,
    main_summary qstat user queue state name = Ok text ->
    exists filtered sp s,
      returned (filter_json qstat user queue state name) = Ok (filtered, sp) /\
      text = summary_text s /\
      number_jobs s = List.length filtered /\
      total (queue_job_counts s) = Z.of_nat (List.length filtered) /\
      total (job_state_counts s) = Z.of_nat (List.length filtered).
Proof.
  intros qstat user queue state name text H. unfold main_summary in H.
  bind_inv H. destruct x as [filtered sp]. cbn [fst] in H.
  unfold summarize_json in H. bind_inv H. injection H as <-.
  exists filtered, sp, x. split; [exact E|]. split; [reflexivity|].
  pose proof E0 as Hs. unfold summarize in Hs. cbn [Py.len Py.items bind] in Hs.
  bind_inv Hs. injection Hs as <-. cbn [number_jobs queue_job_counts job_state_counts].
  destruct x0 as [qc sc]. apply count_jobs_spec in E1. destruct E1 as (Ht & ->).
  cbn [fst snd] in *. change (total []) with 0%Z in Ht.
  split; [reflexivity|]. split; [lia|].
  unfold total. cbn [fold_right snd]. lia.
Qed.

(** X12 on the two sample jobs, asked for alice. *)
Lemma script_totals_agree_witness :
  exists filtered sp s,
    returned (filter_json (payload two_jobs) "alice" "" "" "") = Ok (filtered, sp) /\
    alice_summary_text = summary_text s /\
    number_jobs s = List.length filtered /\
    total (queue_job_counts s) = Z.of_nat (List.length filtered) /\
    total (job_state_counts s) = Z.of_nat (List.length filtered).
Proof.
  refine (script_totals_agree (payload two_jobs) "alice" "" "" "" alice_summary_text _).
  vm_compute. reflexivity.
Defined.

(** X13.  When the script ends normally, a user or a queue was given and
    is not the empty text, and what it printed is the banner with the
    summary, then the table, then the same banner again (with the later
    clock reading) exactly when more than 30 jobs were retained; nothing
    else is printed. *)
Theorem main_output :
  forall args qstat now later out,
    main args qstat now later = (out, Ok tt) ->
    (truthy (arg_user args) || truthy (arg_queue args))%bool = true /\
    exists filtered sp json_summary data_table,
      returned (filter_json qstat (fill_none (arg_user args)) (fill_none (arg_queue args))
                  (fill_none (arg_state args)) (fill_none (arg_name args)))
      = Ok (filtered, sp) /\
      summarize_json (VDict filtered) (VDict filtered) = Ok json_summary /\
      snd (generate_table (VDict filtered) sp) = Ok data_table /\
      out = (banner now json_summary :: data_table ::
             (if Nat.ltb 30 (List.length filtered) then [banner later json_summary]
              else []))%list.
Proof.
  intros args qstat now later out. unfold main.
  destruct (truthy (arg_user args) || truthy (arg_queue args))%bool;
    cbn [negb]; [|discriminate].
  intros H. split; [reflexivity|].
  destruct (returned (filter_json qstat _ _ _ _)) as [[filtered sp]|e] eqn:F;
    [|discriminate].
  rewrite (filter_json_ok_prints_nothing _ _ _ _ _ _ F) in H. cbn [map app] in H.
  destruct (summarize_json (VDict filtered) (VDict filtered)) as [json_summary|e] eqn:S;
    [|discriminate].
  destruct (snd (generate_table (VDict filtered) sp)) as [data_table|e] eqn:T;
    [|discriminate].
  exists filtered, sp, json_summary, data_table.
  split; [reflexivity|]. split; [exact S|]. split; [exact T|].
  destruct (Nat.ltb 30 (List.length filtered)); now injection H as <-.
Qed.

(** X13 on the two sample jobs, asked for alice. *)
Lemma main_output_witness :
  (truthy (arg_user alice_args) || truthy (arg_queue alice_args))%bool = true /\
  exists filtered sp json_summary data_table,
    returned (filter_json (payload two_jobs) (fill_none (arg_user alice_args))
                (fill_none (arg_queue alice_args)) (fill_none (arg_state alice_args))
                (fill_none (arg_name alice_args)))
    = Ok (filtered, sp) /\
    summarize_json (VDict filtered) (VDict filtered) = Ok json_summary /\
    snd (generate_table (VDict filtered) sp) = Ok data_table /\
    alice_output = (banner "12:00" json_summary :: data_table ::
                    (if Nat.ltb 30 (List.length filtered)
                     then [banner "12:01" json_summary] else []))%list.
Proof.
  refine (main_output alice_args (payload two_jobs) "12:00" "12:01" alice_output _).
  vm_compute. reflexivity.
Defined.

(** ** Edge behaviour of the converters *)



(** X15.  With a numeric used CPU percentage, [convert_cpu_efficiency]
    raises [ZeroDivisionError] when the requested CPU count is zero and
    [TypeError] when it is not a number (a text, a list, a mapping or
    null). *)
Theorem cpu_needs_a_nonzero_number :
  forall used_cpus total_cpus used u nc,
    used_cpus_of used_cpus = Ok used ->
    Py.as_int used = Some u ->
    Py.getitem total_cpus "ncpus" = Ok nc ->
    (Py.as_int nc = Some 0%Z ->
     convert_cpu_efficiency used_cpus total_cpus = Raise ZeroDivisionError) /\
    (Py.as_int nc = None ->
     convert_cpu_efficiency used_cpus total_cpus = Raise TypeError).
Proof.
  intros used_cpus total_cpus used u nc Hu Ha Hn.
  unfold convert_cpu_efficiency, cpu_ratio. rewrite Hu, Hn. cbn [bind]. rewrite Ha.
  split; intros ->; reflexivity.
Qed.

(** X15 on the running job: zero CPUs requested, and a count written as a
    text. *)
Lemma cpu_needs_a_nonzero_number_witness :
  convert_cpu_efficiency running_job (resources "16gb" "2:00:00" 0)
  = Raise ZeroDivisionError /\
  convert_cpu_efficiency running_job (VDict [("ncpus", VStr "2")]) = Raise TypeError.
Proof.
  split.
  - refine (proj1 (cpu_needs_a_nonzero_number running_job (resources "16gb" "2:00:00" 0)
                     (VInt 200) 200%Z (VInt 0) _ _ _) _); vm_compute; reflexivity.
  - refine (proj2 (cpu_needs_a_nonzero_number running_job (VDict [("ncpus", VStr "2")])
                     (VInt 200) 200%Z (VStr "2") _ _ _) _); vm_compute; reflexivity.
Defined.

Lemma take_short n s : n <= 2 -> String.length s = n -> take (String.length s - 2) s = "".
Proof.
  intros Hn Hl. replace (String.length s - 2) with 0 by lia. now destruct s.
Qed.

(** X16.  A memory request of at most two characters (the units alone, a
    single digit, the empty text) leaves no amount to convert:
    [convert_mem_efficiency] raises [ValueError], even for the units
    [0b], once the used memory has been read. *)
Theorem short_memory_request_raises :
  forall used_mem total_mem used total,
    used_mem_of used_mem = Ok used ->
    Py.getitem total_mem "mem" = Ok (VStr total) ->
    String.length total <= 2 ->
    convert_mem_efficiency used_mem total_mem = Raise ValueError.
Proof.
  intros used_mem total_mem used total Hu Hm Hl.
  unfold convert_mem_efficiency. rewrite Hu, Hm. cbn [bind mem_units_amount].
  unfold mem_amount. rewrite (take_short (String.length total) total Hl eq_refl).
  reflexivity.
Qed.

(** X16 on a request that is [0b] alone. *)
Lemma short_memory_request_raises_witness :
  convert_mem_efficiency running_job (resources "0b" "2:00:00" 2) = Raise ValueError.
Proof.
  refine (short_memory_request_raises running_job (resources "0b" "2:00:00" 2)
            8388608%Z "0b" _ _ _).
  - vm_compute. reflexivity.
  - reflexivity.
  - simpl. lia.
Defined.

Lemma two_chars u : String.length u = 2 -> exists c d, u = String c (String d "").
Proof.
  destruct u as [|c [|d [|e u]]]; simpl; intros H; try discriminate. eauto.
Qed.

Lemma convert_mem_efficiency_by_units used_mem total_mem total_mem' prefix u u' :
  Py.getitem total_mem "mem" = Ok (VStr (prefix ++ u)) ->
  Py.getitem total_mem' "mem" = Ok (VStr (prefix ++ u')) ->
  String.length u = 2 -> String.length u' = 2 ->
  (forall w, String.eqb (lower u) w = String.eqb (lower u') w) ->
  convert_mem_efficiency used_mem total_mem = convert_mem_efficiency used_mem total_mem'.
Proof.
  intros H1 H2 L1 L2 Hw.
  destruct (two_chars u L1) as (c & d & ->). destruct (two_chars u' L2) as (c' & d' & ->).
  unfold convert_mem_efficiency. rewrite H1, H2.
  destruct (used_mem_of used_mem); [|reflexivity]. cbn [bind mem_units_amount].
  rewrite !mem_amount_suffix, !mem_units_suffix.
  destruct (float_of_str prefix); [|reflexivity]. cbn [bind].
  now rewrite !Hw.
Qed.

Lemma lower_lower s : lower (lower s) = lower s.
Proof.
  unfold lower. induction s as [|c s IH]; cbn [map_chars]; [reflexivity|].
  rewrite IH. f_equal. destruct c as [[] [] [] [] [] [] [] []]; reflexivity.
Qed.

Lemma length_map_chars f s : String.length (map_chars f s) = String.length s.
Proof. induction s as [|c s IH]; simpl; [reflexivity | now rewrite IH]. Qed.

(** X17.  The case of the two unit characters of the memory request does
    not matter: the request written with upper-case units and the one
    written with lower-case units give the same result, or the same
    exception. *)
Theorem memory_units_ignore_case :
  forall used_mem upper_case lower_case prefix units,
    String.length units = 2 ->
    Py.getitem upper_case "mem" = Ok (VStr (prefix ++ upper units)) ->
    Py.getitem lower_case "mem" = Ok (VStr (prefix ++ lower units)) ->
    convert_mem_efficiency used_mem upper_case = convert_mem_efficiency used_mem lower_case.
Proof.
  intros used_mem upper_case lower_case prefix units Lu Hup Hlo.
  eapply convert_mem_efficiency_by_units; try eassumption.
  - unfold upper. now rewrite length_map_chars.
  - unfold lower. now rewrite length_map_chars.
  - intros w. now rewrite lower_upper, lower_lower.
Qed.

(** X17 on [16GB] and [16gb]. *)
Lemma memory_units_ignore_case_witness :
  convert_mem_efficiency running_job (resources "16GB" "2:00:00" 2)
  = convert_mem_efficiency running_job (resources "16gb" "2:00:00" 2).
Proof.
  exact (memory_units_ignore_case running_job (resources "16GB" "2:00:00" 2)
           (resources "16gb" "2:00:00" 2) "16" "gb" eq_refl eq_refl eq_refl).
Defined.

(** X18.  Units that are none of [gb], [mb], [kb], [0b] (whatever their
    case) are not rejected: the amount is taken as kilobytes, so the
    request gives what the same amount with [kb] gives. *)
Theorem unknown_memory_units_count_as_kb :
  forall used_mem unknown kb prefix units,
    String.length units = 2 ->
    known_units units = false ->
    Py.getitem unknown "mem" = Ok (VStr (prefix ++ units)) ->
    Py.getitem kb "mem" = Ok (VStr (prefix ++ "kb")) ->
    convert_mem_efficiency used_mem unknown = convert_mem_efficiency used_mem kb.
Proof.
  intros used_mem unknown kb prefix units Lo Hk Hun Hkb.
  unfold known_units in Hk.
  repeat (apply orb_false_elim in Hk; destruct Hk as [Hk ?]).
  destruct (two_chars units Lo) as (c & d & ->).
  unfold convert_mem_efficiency. rewrite Hun, Hkb.
  destruct (used_mem_of used_mem); [|reflexivity]. cbn [bind mem_units_amount].
  rewrite (mem_amount_suffix prefix c d), (mem_units_suffix prefix c d).
  rewrite (mem_amount_suffix prefix "k" "b"), (mem_units_suffix prefix "k" "b").
  destruct (float_of_str prefix); [|reflexivity]. cbn [bind].
  repeat match goal with E : String.eqb _ _ = false |- _ => rewrite E; clear E end.
  reflexivity.
Qed.

(** X18 on a request of sixteen terabytes. *)
Lemma unknown_memory_units_count_as_kb_witness :
  convert_mem_efficiency running_job (resources "16tb" "2:00:00" 2)
  = convert_mem_efficiency running_job (resources "16kb" "2:00:00" 2).
Proof.
  exact (unknown_memory_units_count_as_kb running_job (resources "16tb" "2:00:00" 2)
           (resources "16kb" "2:00:00" 2) "16" "tb" eq_refl eq_refl eq_refl eq_refl).
Defined.

Lemma replace_from_digits o w new d t :
  is_digit o = false ->
  all_chars is_digit d = true ->
  replace_from (String o w) new 0 (d ++ t) = d ++ replace_from (String o w) new 0 t.
Proof.
  intros Ho. induction d as [|c d IH]; [reflexivity|]. cbn [all_chars]. intros H.
  apply andb_prop in H. destruct H as [Hc Hd].
  cbn [append replace_from String.prefix].
  destruct (Ascii.ascii_dec o c) as [<-|_]; [congruence|].
  now rewrite (IH Hd).
Qed.

Lemma int_of_str_digits d : is_digits d = true -> int_of_str d = Ok (digits_value d).
Proof.
  intros H. destruct (is_digits_inv d H) as [Hne Hd].
  unfold int_of_str. rewrite (strip_digits d Hd).
  destruct d as [|c d]; [congruence|].
  pose proof Hd as Hd'. cbn [all_chars] in Hd'. apply andb_prop in Hd'.
  destruct Hd' as [Hc _].
  rewrite (split_sign_digit c d Hc), (drop_underscores_digits _ false Hd), H. reflexivity.
Qed.

(** X19.  The used memory is read by deleting [kb] and then [b] from the
    text: digits followed by [kb] and the same digits followed by [b]
    give the same number, so an amount in bytes is taken for as many
    kilobytes. *)
Theorem used_memory_in_bytes_is_not_scaled :
  forall used_mem usage digits,
    Py.getitem used_mem "resources_used" = Ok usage ->
    is_digits digits = true ->
    (Py.getitem usage "mem" = Ok (VStr (digits ++ "kb")) ->
     used_mem_of used_mem = Ok (digits_value digits)) /\
    (Py.getitem usage "mem" = Ok (VStr (digits ++ "b")) ->
     used_mem_of used_mem = Ok (digits_value digits)).
Proof.
  intros used_mem usage digits Hu Hd.
  destruct (is_digits_inv digits Hd) as [_ Ha].
  split; intros Hm; unfold used_mem_of; rewrite Hu; cbn [bind]; rewrite Hm;
    cbn [bind Py.replace]; unfold PyStr.replace;
    rewrite (replace_from_digits "k" "b" "" digits _ eq_refl Ha);
    cbn [replace_from String.prefix];
    [ change (replace_from "kb" "" 0 "kb") with ""
    | change (replace_from "kb" "" 0 "b") with "b" ];
    rewrite (replace_from_digits "b" "" "" digits _ eq_refl Ha);
    [ change (replace_from "b" "" 0 "") with ""
    | change (replace_from "b" "" 0 "b") with "" ];
    rewrite append_empty_r, (int_of_str_digits digits Hd); reflexivity.
Qed.

(** X19 on 512 kilobytes and 512 bytes. *)
Lemma used_memory_in_bytes_is_not_scaled_witness :
  used_mem_of (VDict [("resources_used", usage 0 "512kb" "0:00:00")]) = Ok 512%Z /\
  used_mem_of (VDict [("resources_used", usage 0 "512b" "0:00:00")]) = Ok 512%Z.
Proof.
  split.
  - exact (proj1 (used_memory_in_bytes_is_not_scaled
                    (VDict [("resources_used", usage 0 "512kb" "0:00:00")])
                    (usage 0 "512kb" "0:00:00") "512" eq_refl eq_refl) eq_refl).
  - exact (proj2 (used_memory_in_bytes_is_not_scaled
                    (VDict [("resources_used", usage 0 "512b" "0:00:00")])
                    (usage 0 "512b" "0:00:00") "512" eq_refl eq_refl) eq_refl).
Defined.
